(** * aut0_counselors: the two Gemini-backed endpoints of [app.py]

    A shallow embedding of the request handlers [next_question] and
    [generate_report] of [src/app.py], together with the Python and Flask
    operations they rely on, and the properties of the request/response
    contract stated over it.

    Layout:
    - [Py]      JSON values as Python objects, [str()], [repr()], truthiness,
                iteration, subscripting, [dict.get], exceptions;
    - [Eff]     the effects of a handler run: calls made to the model client
                and records written to the logger, with exceptions;
    - [Pydantic] the response schema [QuestionResponse];
    - [App]     the handlers, line by line;
    - the properties. *)

From Stdlib Require Import String Ascii ZArith List Bool Lia DecimalString.
Import ListNotations.

Set Warnings "-register-all".
Open Scope list_scope.
Open Scope string_scope.

(** ** Python values and built-ins *)

Module Py.

(** The double quote and the line feed, which a string literal of this
    file does not hold. *)
Definition dq : string := String "034"%char EmptyString.
Definition nl : string := String "010"%char EmptyString.
Definition sq : string := String "039"%char EmptyString.

(** A [float] is determined by its [repr] (the shortest decimal string that
    reads back to it), so it is carried as that string: [str()] prints it and
    truthiness compares it with the two zeros. *)
Definition pyfloat := string.

(** What [json.loads] (through [request.get_json()]) builds: [None], [bool],
    [int], [float], [str], [list], and [dict] with [str] keys in insertion
    order. A [str] is the sequence of its UTF-8 bytes. *)
Inductive value : Type :=
| VNone
| VBool (b : bool)
| VInt (z : Z)
| VFloat (f : pyfloat)
| VStr (s : string)
| VList (l : list value)
| VDict (d : list (string * value)).

(** Exceptions the handlers can meet; all derive from [Exception].
    [ClientError] stands for whatever escapes
    [client.models.generate_content] (API, network or decoding errors). *)
Inductive exn : Type :=
| BadRequest (description : string)
| AttributeError (msg : string)
| KeyError (key : string)
| TypeError (msg : string)
| ClientError (msg : string).

(** The outcome of evaluating an expression: a value or a raised exception. *)
Inductive Res (A : Type) : Type :=
| Ok (a : A)
| Raise (e : exn).
Arguments Ok {A} a.
Arguments Raise {A} e.

Definition res_bind {A B} (r : Res A) (k : A -> Res B) : Res B :=
  match r with
  | Ok a => k a
  | Raise e => Raise e
  end.

(** [type(v).__name__] *)
Definition type_name (v : value) : string :=
  match v with
  | VNone => "NoneType"
  | VBool _ => "bool"
  | VInt _ => "int"
  | VFloat _ => "float"
  | VStr _ => "str"
  | VList _ => "list"
  | VDict _ => "dict"
  end.

(** [str(z)] for an [int]. *)
Definition str_int (z : Z) : string := NilZero.string_of_int (Z.to_int z).

(** *** [repr()] of a [str] *)

Definition hex_digit (n : nat) : ascii :=
  ascii_of_nat (if Nat.ltb n 10 then 48 + n else 87 + n).

Definition hex_escape (c : ascii) : string :=
  let n := nat_of_ascii c in
  String "\" (String "x" (String (hex_digit (n / 16))
                           (String (hex_digit (Nat.modulo n 16)) EmptyString))).

Fixpoint contains_char (c : ascii) (s : string) : bool :=
  match s with
  | EmptyString => false
  | String a s' => Ascii.eqb a c || contains_char c s'
  end.

(** The quote [repr] wraps a [str] in: single, unless the text holds a
    single quote and no double quote. *)
Definition repr_quote (s : string) : ascii :=
  if contains_char "039" s && negb (contains_char "034" s)
  then "034"%char else "039"%char.

(** Escaping of one character inside [repr]: the chosen quote and the
    backslash get a backslash, tab, line feed and carriage return their
    letter, other control characters and DEL a two-digit hexadecimal escape.
    Bytes of non-ASCII text are kept: this is [repr] for printable
    non-ASCII characters; the non-printable ones (U+0085, U+00A0, U+200B
    and the like), which [repr] escapes, are outside the model. *)
Definition repr_char (quote c : ascii) : string :=
  let n := nat_of_ascii c in
  if Ascii.eqb c quote || Ascii.eqb c "\" then String "\" (String c EmptyString)
  else if Nat.eqb n 9 then "\t"
  else if Nat.eqb n 10 then "\n"
  else if Nat.eqb n 13 then "\r"
  else if Nat.ltb n 32 || Nat.eqb n 127 then hex_escape c
  else String c EmptyString.

Fixpoint repr_body (quote : ascii) (s : string) : string :=
  match s with
  | EmptyString => EmptyString
  | String c s' => repr_char quote c ++ repr_body quote s'
  end.

Definition repr_str (s : string) : string :=
  let q := repr_quote s in
  String q (repr_body q s ++ String q EmptyString).

(** [", ".join(parts)] *)
Definition join_comma (parts : list string) : string := String.concat ", " parts.

(** *** [repr()] and [str()] of a value *)

Fixpoint py_repr (v : value) : string :=
  match v with
  | VNone => "None"
  | VBool true => "True"
  | VBool false => "False"
  | VInt z => str_int z
  | VFloat f => f
  | VStr s => repr_str s
  | VList l => "[" ++ join_comma (map py_repr l) ++ "]"
  | VDict d =>
      "{" ++ join_comma (map (fun kv => repr_str (fst kv) ++ ": " ++ py_repr (snd kv)) d) ++ "}"
  end.

(** [str(v)], which is also what a replacement field [{v}] of an f-string
    inserts. Only a [str] prints differently from its [repr]. *)
Definition py_str (v : value) : string :=
  match v with
  | VStr s => s
  | _ => py_repr v
  end.

(** *** Truthiness, iteration, length *)

(** [bool(v)] as [if not v] tests it. *)
Definition truthy (v : value) : bool :=
  match v with
  | VNone => false
  | VBool b => b
  | VInt z => negb (Z.eqb z 0)
  | VFloat f => negb (String.eqb f "0.0" || String.eqb f "-0.0")
  | VStr s => negb (String.eqb s EmptyString)
  | VList l => match l with [] => false | _ => true end
  | VDict d => match d with [] => false | _ => true end
  end.

Fixpoint chars (s : string) : list value :=
  match s with
  | EmptyString => []
  | String c s' => VStr (String c EmptyString) :: chars s'
  end.

(** The items a [for item in v] loop visits: the elements of a list, the
    keys of a dict, the characters of a str; anything else is not iterable. *)
Definition py_iter (v : value) : Res (list value) :=
  match v with
  | VList l => Ok l
  | VDict d => Ok (map (fun kv => VStr (fst kv)) d)
  | VStr s => Ok (chars s)
  | _ => Raise (TypeError (sq ++ type_name v ++ "' object is not iterable"))
  end.

(** [len(v)] *)
Definition py_len (v : value) : Res Z :=
  match v with
  | VList l => Ok (Z.of_nat (List.length l))
  | VDict d => Ok (Z.of_nat (List.length d))
  | VStr s => Ok (Z.of_nat (String.length s))
  | _ => Raise (TypeError ("object of type '" ++ type_name v ++ "' has no len()"))
  end.

(** *** Dictionaries *)

(** The value bound to [key], if any. The keys of a dict are distinct, so
    the first binding is the only one. *)
Fixpoint lookup (key : string) (d : list (string * value)) : option value :=
  match d with
  | [] => None
  | (k, v) :: d' => if String.eqb k key then Some v else lookup key d'
  end.

(** [data.get(key, default)]: a method of [dict] only. *)
Definition get (data : value) (key : string) (default : value) : Res value :=
  match data with
  | VDict d =>
      match lookup key d with
      | Some v => Ok v
      | None => Ok default
      end
  | _ => Raise (AttributeError (sq ++ type_name data ++ "' object has no attribute 'get'"))
  end.

(** [item[key]] with a [str] key. *)
Definition getitem (item : value) (key : string) : Res value :=
  match item with
  | VDict d =>
      match lookup key d with
      | Some v => Ok v
      | None => Raise (KeyError key)
      end
  | VList _ => Raise (TypeError "list indices must be integers or slices, not str")
  | VStr _ => Raise (TypeError "string indices must be integers, not 'str'")
  | _ => Raise (TypeError (sq ++ type_name item ++ "' object is not subscriptable"))
  end.

(** [str(e)] of an exception. *)
Definition exn_str (e : exn) : string :=
  match e with
  | BadRequest d => "400 Bad Request: " ++ d
  | AttributeError m => m
  | KeyError k => repr_str k
  | TypeError m => m
  | ClientError m => m
  end.

End Py.

(** ** The response schema (pydantic) *)

Module Pydantic.
Import Py.

(** The annotations the application uses: [str] and [list[...]]. *)
Inductive annotation : Type :=
| Str
| ListOf (a : annotation).

(** What [Field(...)] records about a field. The length bounds are the
    keyword arguments [min_length] and [max_length]; both default to
    [None]. *)
Record FieldInfo : Type := mkFieldInfo {
  description : option string;
  min_length : option nat;
  max_length : option nat
}.

(** [Field(description=d)] *)
Definition Field (d : string) : FieldInfo :=
  {| description := Some d; min_length := None; max_length := None |}.

Record ModelField : Type := mkModelField {
  field_name : string;
  field_type : annotation;
  field_info : FieldInfo
}.

(** A [BaseModel] subclass: its fields in declaration order, all required
    (none has a default). *)
Definition BaseModel := list ModelField.

Fixpoint has_type (a : annotation) (v : value) : bool :=
  match a, v with
  | Str, VStr _ => true
  | ListOf a', VList l => forallb (has_type a') l
  | _, _ => false
  end.

Definition size (v : value) : option nat :=
  match v with
  | VStr s => Some (String.length s)
  | VList l => Some (List.length l)
  | _ => None
  end.

Definition within (info : FieldInfo) (v : value) : bool :=
  match size v with
  | Some n =>
      match min_length info with Some lo => Nat.leb lo n | None => true end
      && match max_length info with Some hi => Nat.leb n hi | None => true end
  | None => true
  end.

(** Validation of a decoded JSON document against a model: an object that
    binds every field to a value of the field's type and within its length
    bounds; other keys are ignored. *)
Definition validates (m : BaseModel) (v : value) : bool :=
  match v with
  | VDict d =>
      forallb (fun f =>
                 match lookup (field_name f) d with
                 | Some x => has_type (field_type f) x && within (field_info f) x
                 | None => false
                 end) m
  | _ => false
  end.

End Pydantic.

(** ** Effects of a handler run *)

Module Eff.
Import Py.

(** [types.GenerateContentConfig(...)]: the keyword arguments the handlers
    pass; an argument left out is [None]. *)
Record GenerateContentConfig : Type := mkConfig {
  system_instruction : string;
  temperature : pyfloat;
  response_mime_type : option string;
  response_schema : option Pydantic.BaseModel;
  max_output_tokens : option Z
}.

(** One call [client.models.generate_content(model=, contents=, config=)]. *)
Record Call : Type := mkCall {
  model : string;
  contents : string;
  config : GenerateContentConfig
}.

(** The external model client: for a call, the text of the response
    ([response.text]) or the exception it raises. *)
Definition ModelClient := Call -> Res string.

(** A record handed to [logger.error]. *)
Record LogRecord : Type := mkLogRecord {
  message : string;
  exc_info : bool
}.

(** What a run leaves behind: the calls made to the model client and the
    records logged, oldest first. *)
Record World : Type := mkWorld {
  calls : list Call;
  records : list LogRecord
}.

Definition world0 : World := {| calls := []; records := [] |}.

(** A computation that may raise and has effects on the world; the effects
    made before an exception stay. *)
Definition M (A : Type) : Type := World -> Res A * World.

Definition ret {A} (a : A) : M A := fun w => (Ok a, w).

Definition bind {A B} (m : M A) (k : A -> M B) : M B :=
  fun w =>
    match m w with
    | (Ok a, w') => k a w'
    | (Raise e, w') => (Raise e, w')
    end.

Definition raise {A} (e : exn) : M A := fun w => (Raise e, w).

Definition lift {A} (r : Res A) : M A := fun w => (r, w).

(** [try: body / except Exception as e: handler e] *)
Definition try_except {A} (body : M A) (handler : exn -> M A) : M A :=
  fun w =>
    match body w with
    | (Ok a, w') => (Ok a, w')
    | (Raise e, w') => handler e w'
    end.

(** [logger.error(message, exc_info=exc_info)] *)
Definition logger_error (message : string) (exc_info : bool) : M unit :=
  fun w =>
    (Ok tt, {| calls := calls w;
               records := (records w ++ [mkLogRecord message exc_info])%list |}).

(** [client.models.generate_content(...)] followed by [.text]. The module
    global [client] is [None] when the constructor failed at start-up. *)
Definition generate_content (client : option ModelClient) (c : Call) : M string :=
  match client with
  | None => raise (AttributeError "'NoneType' object has no attribute 'models'")
  | Some f =>
      fun w => (f c, {| calls := (calls w ++ [c])%list; records := records w |})
  end.

(** The run of a handler from a fresh world. *)
Definition run {A} (m : M A) : Res A * World := m world0.

End Eff.

Declare Scope py_scope.
Delimit Scope py_scope with py.
Notation "x <- m ;; k" := (Eff.bind m (fun x => k))
  (at level 61, m at next level, right associativity) : py_scope.
Notation "m ;; k" := (Eff.bind m (fun _ => k))
  (at level 61, right associativity) : py_scope.
Notation "x <~ r ;; k" := (Py.res_bind r (fun x => k))
  (at level 61, r at next level, right associativity) : py_scope.
Open Scope py_scope.

(** ** Flask requests and responses *)

Module Flask.
Import Py Eff.

(** The body of a request as [request.get_json()] sees it: the decoded
    document, or a body that does not decode, with the description of the
    [BadRequest] that [on_json_loading_failed] raises for it. *)
Inductive Payload : Type :=
| Decoded (v : value)
| Undecodable (description : string).

(** A request: whether its content type announces JSON
    ([request.is_json]) and its body. *)
Record Request : Type := mkRequest {
  is_json : bool;
  payload : Payload
}.

(** [request.get_json()], on a request whose content type announces JSON. *)
Definition get_json (request : Request) : Res value :=
  match payload request with
  | Decoded v => Ok v
  | Undecodable d => Raise (BadRequest d)
  end.

Inductive Body : Type :=
| Text (s : string)
| Json (v : value).

Record Response : Type := mkResponse {
  status : Z;
  mimetype : string;
  body : Body
}.

(** [Response(text, mimetype=m)] *)
Definition Response_ (text : string) (m : string) : Response :=
  {| status := 200; mimetype := m; body := Text text |}.

(** [jsonify(v)] *)
Definition jsonify (v : value) : Response :=
  {| status := 200; mimetype := "application/json"; body := Json v |}.

(** A view returning [response, code]. *)
Definition with_status (r : Response) (code : Z) : Response :=
  {| status := code; mimetype := mimetype r; body := body r |}.

(** What the caller gets when the view raises: the status of an
    [HTTPException], or the 500 of an unhandled exception. *)
Definition status_of_exn (e : exn) : Z :=
  match e with
  | BadRequest _ => 400
  | _ => 500
  end.

End Flask.

(** ** The application *)

Module App.
Import Py Pydantic Eff Flask.

Definition MODEL_NAME : string := "gemini-2.5-pro".

(** [class QuestionResponse(BaseModel)] *)
Definition QuestionResponse : BaseModel :=
  [ mkModelField "question" Str (Field "The dynamic question to ask the user");
    mkModelField "options" (ListOf Str)
      (Field "3 to 4 short, actionable multiple-choice options") ].

(** The f-string bound to [sys_prompt] in [next_question]. *)
Definition next_question_sys_prompt (name age gender language : value) : string :=
  String.concat EmptyString [
    "ROLE:"; nl;
    "You are an ELITE, highly experienced career counselor for Easyskill Career Academy. Your consultation fee is 500 rupees, meaning your service is premium, high-value, and deeply analytical. Your job is to conduct a thorough, dynamic interview with a student to build a concrete roadmap for their life."; nl;
    nl;
    "The user profile: Name: "; py_str name; ", Age: "; py_str age; ", Gender: "; py_str gender; ", Preferred Language: "; py_str language; "."; nl;
    nl;
    "PHASE 1: THE INTERVIEW LOOP"; nl;
    "- Ask exactly ONE question at a time. Never ask multiple questions in a single response."; nl;
    "- PREMIUM COUNSELING REQUIREMENT: Because the user has paid 500 rupees, you must NEVER ask boring, generic, or random questions. Every single question must be deeply thought-provoking, directly relevant to building their career roadmap, and highly professional."; nl;
    "- ULTRA-SHORT QUESTIONS: Your questions MUST be extremely concise, punchy, and direct. NEVER write 3-4 line questions. Use very short sentences, for example: "; dq; "Where have you studied?"; dq; ", "; dq; "What package do you want in your future?"; dq; ", or "; dq; "What is your current salary?"; dq; "."; nl;
    "- Your questions must adapt logically to the user's previous answers. Dig deep into their specific skills, financial realities, and ambitions. Ensure a perfect, logical flow to the questioning."; nl;
    "- Ask a minimum of 7 and a maximum of 15 questions. If you feel you have gathered enough deeply critical data to justify the 500-rupee premium report after 7 questions, you may stop. Otherwise, continue up to 15."; nl;
    "- Track the question count silently. Do not tell the user which question number they are on."; nl;
    "- End of Interview: Once you have asked 7 to 15 questions and gathered sufficient data to build a premium roadmap, output the exact phrase: ASSESSMENT_COMPLETE and await the command to generate the report."; nl;
    "- CRITICAL: Provide exactly 3 to 4 short, highly clickable multiple-choice options for the user to tap in valid JSON format."; nl;
    "- LANGUAGE REQUIREMENT: You MUST generate the question and the options strictly in "; py_str language; "."; nl ].

(** The f-string bound to [sys_prompt] in [generate_report]. *)
Definition generate_report_sys_prompt (name age gender language : value) : string :=
  String.concat EmptyString [
    "ROLE:"; nl;
    "You are an ELITE, highly experienced career counselor for Easyskill Career Academy. The user has paid 500 rupees for this consultation roadmap, so the final report MUST completely justify this premium price. It must be a highly customized, visually scannable, and actionable life roadmap that feels exclusive and expertly crafted."; nl;
    "    "; nl;
    "The user profile: "; py_str name; ", "; py_str age; " years old, gender: "; py_str gender; ", Preferred Language: "; py_str language; "."; nl;
    "    "; nl;
    "PHASE 2: THE FINAL PREMIUM REPORT GENERATION"; nl;
    "When commanded to generate the report, you must use the exact structure below."; nl;
    nl;
    "CRITICAL RULES FOR THE PREMIUM REPORT:"; nl;
    "- DO NOT use generic advice, long introductory paragraphs, or motivational filler. Every word must hold high value."; nl;
    "- The roadmap must perfectly logically align with the answers they gave during the interview loop."; nl;
    "- Use highly scannable bullet points, short sentences, and bold text for key terms."; nl;
    "- Keep the tone elite, authoritative, professional, and highly actionable."; nl;
    "- Format the output as clean HTML (using <h1>, <h2>, <ul>, <li>, <strong>) suitable for injecting directly into a webpage's div. "; nl;
    "- EXTREMELY IMPORTANT BAN ON FULL HTML: DO NOT generate a full HTML document. You MUST NOT include <!DOCTYPE html>, <html>, <head>, <style>, or <body> tags. ONLY output the internal structural tags (<h1>, <h2>, <p>, <ul>, <footer>)."; nl;
    "- EXTREMELY IMPORTANT BAN ON MARKDOWN: DO NOT wrap the output in Markdown code blocks (e.g. absolutely no ```html at the start and no ``` at the end). Just output the raw HTML tags sequence directly as plain text. The system crashes if you use markdown code blocks."; nl;
    "- LANGUAGE REQUIREMENT: You MUST generate the report content strictly in "; py_str language; "."; nl;
    nl;
    "REPORT VISUAL THEME AND STYLING:"; nl;
    "- Branding: The report should be headed with "; dq; "EASYSKILL CAREER ACADEMY"; dq; "."; nl;
    "- Color Palette: Use the clean white, light gray, and distinct blue from the source image."; nl;
    "- Headings: Style all <h1>, <h2>, <h3> tags with the academy's primary blue color."; nl;
    "- Underline: Add a stylized blue underline element, similar to the one in the image under "; dq; "IT Skills"; dq; ", below the main <h1> title."; nl;
    "- Fonts: Specify a clean, professional, sans-serif font throughout the HTML."; nl;
    "- Scannability: Use the colors and bullet points to make information pop, mimicking the clear sections and visual hierarchy of the provided image."; nl;
    "- Trust-Building Elements: Integrate specific academy achievements from the source image into the PDF footer for added credibility."; nl;
    "- Add a section in the footer, stylized with a blue banner or border, featuring the icons and specific stats from the bottom of the image:"; nl;
    "  - An icon of a student with the text "; dq; "25,500+ Happy Students"; dq; "."; nl;
    "  - An icon of an instructor with the text "; dq; "50+ Industry Courses"; dq; "."; nl;
    "  - A map pin icon with the text "; dq; "2+ Branches"; dq; "."; nl;
    "- Contact Info: Include the phone number from the source image (+91 908 154 5252) and a small call-to-action to "; dq; "Contact us to kickstart your career!"; dq; " in the footer area. Use the image's clean, modern styling for this."; nl;
    nl;
    "REPORT STRUCTURE:"; nl;
    nl;
    "<h1>EASYSKILL CAREER ACADEMY</h1>"; nl;
    "<div class="; dq; "styled-underline"; dq; "></div>"; nl;
    nl;
    "<h2>1. Executive Profile Snapshot</h2>"; nl;
    "(Provide 3 to 4 sharp bullet points summarizing their core strengths, primary interests, and ideal work environment based strictly on their interview answers)."; nl;
    nl;
    "<h2>2. Top 3 Recommended Career Paths</h2>"; nl;
    "(For each path, provide):"; nl;
    "Role: [Specific Job Title]"; nl;
    "Why it fits: [One concise sentence explaining the match based on their specific answers]"; nl;
    "Market Outlook: [Brief note on industry demand]"; nl;
    nl;
    "<h2>3. The 30-Day Action Plan</h2>"; nl;
    "(Provide exactly 3 immediate, concrete steps. Avoid generic advice like "; dq; "network"; dq; ". Specify exact certifications, software tools, or specific types of portfolio projects they should start immediately, making them actionable checklists)."; nl;
    nl;
    "<h2>4. Skill Gap Analysis</h2>"; nl;
    "(List 2 to 3 specific technical or soft skills they currently lack for their recommended paths, and recommend precise ways to acquire them, such as relevant online courses or practical projects)."; nl;
    nl;
    "<footer>"; nl;
    "<div class="; dq; "stats-banner"; dq; ">"; nl;
    "    <div class="; dq; "stat"; dq; ">üë©‚Äçüéì 25,500+ Happy Students</div>"; nl;
    "    <div class="; dq; "stat"; dq; ">üë®‚Äçüè´ 50+ Industry Courses</div>"; nl;
    "    <div class="; dq; "stat"; dq; ">üìç 2+ Branches</div>"; nl;
    "</div>"; nl;
    "<p style="; dq; "text-align: center; margin-top: 20px; color: #1E3A8A; font-weight: bold;"; dq; ">Contact Us: +91 908 154 5252 | Learn more at easyskill.in</p>"; nl;
    "</footer>"; nl;
    "    " ].

(** The loop both handlers run over the history:
    [for item in history: user_context += f"Q: {item['question']}\nA: {item['answer']}\n"] *)
Fixpoint qa_loop (items : list value) (user_context : string) : Res string :=
  match items with
  | [] => Ok user_context
  | item :: rest =>
      question <~ getitem item "question" ;;
      answer <~ getitem item "answer" ;;
      qa_loop rest
        (user_context ++ "Q: " ++ py_str question ++ nl ++ "A: " ++ py_str answer ++ nl)
  end.

(** [user_context] as [next_question] builds it. *)
Definition next_question_user_context (history : value) : Res string :=
  let user_context := "Q&A History so far:" ++ nl in
  if negb (truthy history) then
    Ok (user_context ++ "No questions asked yet. This is Question 1. Ask about their current life status or immediate goal." ++ nl)
  else
    items <~ py_iter history ;;
    user_context <~ qa_loop items user_context ;;
    n <~ py_len history ;;
    Ok (user_context ++ nl ++ "This is Question " ++ str_int (n + 1)
          ++ ". Based on the above, ask the NEXT logical question to dig deeper.").

(** [user_context] as [generate_report] builds it. *)
Definition generate_report_user_context (history : value) : Res string :=
  let user_context := "User's Q&A History:" ++ nl in
  items <~ py_iter history ;;
  user_context <~ qa_loop items user_context ;;
  Ok (user_context ++ nl ++ "Generate the final counseling report and course pitch.").

Section Handlers.

(** The module global [client]. *)
Variable client : option ModelClient.

(** [@app.route('/api/next_question', methods=['POST'])] *)
Definition next_question (request : Request) : M Response :=
  if negb (is_json request) then
    raise (BadRequest "Invalid request format. Expected JSON.")
  else
    data <- lift (get_json request) ;;
    language <- lift (get data "language" (VStr "English")) ;;
    name <- lift (get data "name" (VStr "User")) ;;
    age <- lift (get data "age" (VInt 18)) ;;
    gender <- lift (get data "gender" (VStr "Other")) ;;
    history <- lift (get data "history" (VList [])) ;;
    let sys_prompt := next_question_sys_prompt name age gender language in
    user_context <- lift (next_question_user_context history) ;;
    try_except
      (let config :=
         {| system_instruction := sys_prompt;
            temperature := "0.6";
            response_mime_type := Some "application/json";
            response_schema := Some QuestionResponse;
            max_output_tokens := None |} in
       response_text <- generate_content client
                          (mkCall "gemini-2.5-flash" user_context config) ;;
       ret (Response_ response_text "application/json"))
      (fun e =>
         logger_error ("Error in Gemini next_question: " ++ exn_str e) false ;;
         ret (with_status
                (jsonify (VDict [("error", VStr "Failed to calculate next question.")]))
                500)).

(** [@app.route('/api/generate_report', methods=['POST'])] *)
Definition generate_report (request : Request) : M Response :=
  if negb (is_json request) then
    raise (BadRequest "Invalid request format. Expected JSON.")
  else
    data <- lift (get_json request) ;;
    name <- lift (get data "name" (VStr "User")) ;;
    age <- lift (get data "age" VNone) ;;
    gender <- lift (get data "gender" VNone) ;;
    history <- lift (get data "history" (VList [])) ;;
    language <- lift (get data "language" (VStr "English")) ;;
    let sys_prompt := generate_report_sys_prompt name age gender language in
    user_context <- lift (generate_report_user_context history) ;;
    try_except
      (let config :=
         {| system_instruction := sys_prompt;
            temperature := "0.4";
            response_mime_type := None;
            response_schema := None;
            max_output_tokens := Some 8192%Z |} in
       response_text <- generate_content client
                          (mkCall MODEL_NAME user_context config) ;;
       ret (jsonify (VDict [("report", VStr response_text)])))
      (fun e =>
         logger_error ("Error generating report: " ++ exn_str e) true ;;
         ret (with_status
                (jsonify (VDict [("error", VStr "Failed to generate report.")]))
                500)).

End Handlers.

(** *** Module start-up *)

(** The level of a record logged at start-up. *)
Inductive Level : Type :=
| WARNING
| ERROR.

Record StartupRecord : Type := mkStartupRecord {
  levelname : Level;
  startup_message : string
}.

(** [os.environ]: the variables of the process, by name. *)
Definition Environ := list (string * string).

(** [os.environ.get(key)] *)
Fixpoint environ_get (key : string) (environ : Environ) : option string :=
  match environ with
  | [] => None
  | (k, v) :: environ' => if String.eqb k key then Some v else environ_get key environ'
  end.

(** The external constructor: [genai.Client(api_key=k)] for [Some k],
    [genai.Client()] for [None]; it returns a client or raises. *)
Definition ClientConstructor := option string -> Res ModelClient.

(** The module-level code that reads [GEMINI_API_KEY] and builds the global
    [client]: the value of [client] and the records logged, oldest first.
    [if not API_KEY] holds for a missing variable and for an empty one. *)
Definition init_client (environ : Environ) (Client : ClientConstructor)
  : option ModelClient * list StartupRecord :=
  let API_KEY := environ_get "GEMINI_API_KEY" environ in
  let is_set :=
    match API_KEY with
    | Some k => negb (String.eqb k EmptyString)
    | None => false
    end in
  let warned :=
    if negb is_set then
      [mkStartupRecord WARNING
         "GEMINI_API_KEY environment variable not set. Application may not function correctly."]
    else [] in
  match (if is_set then Client API_KEY else Client None) with
  | Ok c => (Some c, warned)
  | Raise e =>
      (None,
       (warned ++ [mkStartupRecord ERROR ("Failed to initialize Client: " ++ exn_str e)])%list)
  end.

End App.

(** ** Routing and derived views *)

Module Props.
Import Py Pydantic Eff Flask App.

(** The two POST routes. *)
Inductive Endpoint : Type :=
| NextQuestion
| GenerateReport.

(** Dispatch of a request to the view of its route. *)
Definition handle (ep : Endpoint) (client : option ModelClient) (request : Request)
  : M Response :=
  match ep with
  | NextQuestion => next_question client request
  | GenerateReport => generate_report client request
  end.

(** [user_context] of the view of a route. *)
Definition user_context_of (ep : Endpoint) (history : value) : Res string :=
  match ep with
  | NextQuestion => next_question_user_context history
  | GenerateReport => generate_report_user_context history
  end.

(** The value a view reads for [key] from a decoded object. *)
Definition field (d : list (string * value)) (key : string) (default : value) : value :=
  match lookup key d with
  | Some v => v
  | None => default
  end.

(** The call each view makes once its prompt and context are built. *)
Definition next_question_call (d : list (string * value)) (user_context : string) : Call :=
  mkCall "gemini-2.5-flash" user_context
    (mkConfig
       (next_question_sys_prompt (field d "name" (VStr "User")) (field d "age" (VInt 18))
          (field d "gender" (VStr "Other")) (field d "language" (VStr "English")))
       "0.6" (Some "application/json") (Some QuestionResponse) None).

Definition generate_report_call (d : list (string * value)) (user_context : string) : Call :=
  mkCall MODEL_NAME user_context
    (mkConfig
       (generate_report_sys_prompt (field d "name" (VStr "User")) (field d "age" VNone)
          (field d "gender" VNone) (field d "language" (VStr "English")))
       "0.4" None None (Some 8192%Z)).

Definition call_of (ep : Endpoint) (d : list (string * value)) (user_context : string) : Call :=
  match ep with
  | NextQuestion => next_question_call d user_context
  | GenerateReport => generate_report_call d user_context
  end.

(** The JSON error response [jsonify({"error": message}), 500]. *)
Definition error_response (message : string) : Response :=
  {| status := 500; mimetype := "application/json";
     body := Json (VDict [("error", VStr message)]) |}.

(** The fixed message of each view's [except] branch. *)
Definition failure_message (ep : Endpoint) : string :=
  match ep with
  | NextQuestion => "Failed to calculate next question."
  | GenerateReport => "Failed to generate report."
  end.

(** The record each view's [except] branch logs for exception [e]. *)
Definition failure_record (ep : Endpoint) (e : exn) : LogRecord :=
  match ep with
  | NextQuestion => mkLogRecord ("Error in Gemini next_question: " ++ exn_str e) false
  | GenerateReport => mkLogRecord ("Error generating report: " ++ exn_str e) true
  end.

(** The response of each view when the model client returns [text]. *)
Definition success_response (ep : Endpoint) (text : string) : Response :=
  match ep with
  | NextQuestion => Response_ text "application/json"
  | GenerateReport => jsonify (VDict [("report", VStr text)])
  end.

(** What the part of a view from its [try] on does, given the call it is
    about to make. *)
Definition guarded_call (ep : Endpoint) (client : option ModelClient) (c : Call)
  : Res Response * World :=
  match client with
  | None =>
      let e := AttributeError "'NoneType' object has no attribute 'models'" in
      (Ok (error_response (failure_message ep)), mkWorld [] [failure_record ep e])
  | Some f =>
      match f c with
      | Ok text => (Ok (success_response ep text), mkWorld [c] [])
      | Raise e => (Ok (error_response (failure_message ep)), mkWorld [c] [failure_record ep e])
      end
  end.

(** The model client is there and answers call [c] with [text]. *)
Definition client_returns (client : option ModelClient) (c : Call) (text : string) : Prop :=
  match client with
  | Some f => f c = Ok text
  | None => False
  end.

(** An item of the history that is an object binding both keys. *)
Definition complete (item : value) : bool :=
  match item with
  | VDict d =>
      match lookup "question" d, lookup "answer" d with
      | Some _, Some _ => true
      | _, _ => false
      end
  | _ => false
  end.

(** The text the loop appends for a complete item. *)
Definition qa_pair (item : value) : string :=
  match item with
  | VDict d =>
      "Q: " ++ py_str (field d "question" VNone) ++ nl
        ++ "A: " ++ py_str (field d "answer" VNone) ++ nl
  | _ => EmptyString
  end.

(** The exception [item['question']], then [item['answer']], raises on an
    item that is not complete. *)
Definition raised_by (item : value) : exn :=
  match item with
  | VDict d =>
      match lookup "question" d with
      | None => KeyError "question"
      | Some _ => KeyError "answer"
      end
  | VList _ => TypeError "list indices must be integers or slices, not str"
  | VStr _ => TypeError "string indices must be integers, not 'str'"
  | _ => TypeError (sq ++ type_name item ++ "' object is not subscriptable")
  end.

(** ** Sample inputs and the texts the specification names *)

(** A client that answers every call with the same text. *)
Definition answering (text : string) : ModelClient := fun _ => Ok text.

(** A client whose every call raises. *)
Definition failing (msg : string) : ModelClient := fun _ => Raise (ClientError msg).

(** A request that announces JSON and decodes to [v]. *)
Definition json_request (v : value) : Request := mkRequest true (Decoded v).

(** Two answered questions. *)
Definition two_items : list value :=
  [ VDict [("question", VStr "Where have you studied?"); ("answer", VStr "Pune")];
    VDict [("question", VStr "What is your current salary?"); ("answer", VInt 0)] ].

(** The line each view opens [user_context] with. *)
Definition context_header (ep : Endpoint) : string :=
  match ep with
  | NextQuestion => "Q&A History so far:" ++ nl
  | GenerateReport => "User's Q&A History:" ++ nl
  end.

(** The text each view closes [user_context] with, after [n] items. *)
Definition context_footer (ep : Endpoint) (n : nat) : string :=
  match ep with
  | NextQuestion =>
      match n with
      | O => "No questions asked yet. This is Question 1. Ask about their current life status or immediate goal." ++ nl
      | S _ => nl ++ "This is Question " ++ str_int (Z.of_nat n + 1)
                 ++ ". Based on the above, ask the NEXT logical question to dig deeper."
      end
  | GenerateReport => nl ++ "Generate the final counseling report and course pitch."
  end.

(** The body [{"history": []}] of the example. *)
Definition empty_history_request : Request :=
  json_request (VDict [("history", VList [])]).

(** The sentence the example of the specification quotes, with its line
    feed. *)
Definition first_question_text : string :=
  "No questions asked yet. This is Question 1. Ask about their current life status or immediate goal." ++ nl.

(** A request that announces JSON with the body [x]; the application runs
    with [debug=True], so the description is the decoder's. *)
Definition undecodable_request : Request :=
  mkRequest true
    (Undecodable "Failed to decode JSON object: Expecting value: line 1 column 1 (char 0)").

(** [isinstance(v, str)] *)
Definition is_str (v : value) : bool :=
  match v with
  | VStr _ => true
  | _ => false
  end.

(** A document with a question and no option at all. *)
Definition no_options : value :=
  VDict [("question", VStr "Where have you studied?"); ("options", VList [])].

(** The shape the specification words: an object whose [question] is a
    string and whose [options] is a sequence of 3 to 4 strings. *)
Definition question_with_3_to_4_options (v : value) : bool :=
  match v with
  | VDict d =>
      match lookup "question" d, lookup "options" d with
      | Some (VStr _), Some (VList options) =>
          forallb is_str options
          && Nat.leb 3 (List.length options) && Nat.leb (List.length options) 4
      | _, _ => false
      end
  | _ => false
  end.

(** An item that is an object without 'question' or without 'answer'. *)
Definition lacks_key (item : value) : bool :=
  match item with
  | VDict d =>
      match lookup "question" d, lookup "answer" d with
      | Some _, Some _ => false
      | _, _ => true
      end
  | _ => false
  end.

(** The body [{"history": ["x", {}]}]. *)
Definition mixed_history_request : Request :=
  json_request (VDict [("history", VList [VStr "x"; VDict []])]).

(** The user-profile line of the report prompt, for the printed fields. *)
Definition report_profile_line (name age gender language : string) : string :=
  "The user profile: " ++ name ++ ", " ++ age ++ " years old, gender: " ++ gender
    ++ ", Preferred Language: " ++ language ++ "." ++ nl.

(** The user-profile line of the interview prompt, for the printed fields. *)
Definition question_profile_line (name age gender language : string) : string :=
  "The user profile: Name: " ++ name ++ ", Age: " ++ age ++ ", Gender: " ++ gender
    ++ ", Preferred Language: " ++ language ++ "." ++ nl.

(** The last rule of the interview prompt, for the printed language. *)
Definition question_language_rule (language : string) : string :=
  "- LANGUAGE REQUIREMENT: You MUST generate the question and the options strictly in "
    ++ language ++ "." ++ nl.

(** The language rule of the report prompt, for the printed language. *)
Definition report_language_rule (language : string) : string :=
  "- LANGUAGE REQUIREMENT: You MUST generate the report content strictly in "
    ++ language ++ "." ++ nl.

(** The four profile keys and the history key: all a view reads. *)
Definition keys_read : list string := ["language"; "name"; "age"; "gender"; "history"].

(** A constructor that always raises. *)
Definition no_credentials : ClientConstructor :=
  fun _ => Raise (ClientError "Missing key inputs argument!").

(** A constructor that, like the real one, raises only when it is given no
    key. *)
Definition needs_key : ClientConstructor :=
  fun key =>
    match key with
    | Some _ => Ok (answering "{}")
    | None => Raise (ClientError "Missing key inputs argument!")
    end.

(** ** Basic facts *)

Lemma append_assoc (a b c : string) : (a ++ b) ++ c = a ++ (b ++ c).
Proof.
  induction a as [|x a IH]; simpl; [reflexivity | now rewrite IH].
Qed.

Lemma append_empty_r (a : string) : a ++ EmptyString = a.
Proof.
  induction a as [|x a IH]; simpl; [reflexivity | now rewrite IH].
Qed.

Lemma concat_empty_cons (x : string) (l : list string) :
  String.concat EmptyString (x :: l) = x ++ String.concat EmptyString l.
Proof.
  destruct l as [|y l]; simpl; [now rewrite append_empty_r | reflexivity].
Qed.

Lemma concat_empty_app (l1 l2 : list string) :
  String.concat EmptyString (l1 ++ l2)%list
  = String.concat EmptyString l1 ++ String.concat EmptyString l2.
Proof.
  induction l1 as [|x l1 IH].
  - reflexivity.
  - change ((x :: l1) ++ l2)%list with (x :: (l1 ++ l2))%list.
    now rewrite !concat_empty_cons, IH, append_assoc.
Qed.

Lemma concat_empty_split (n : nat) (l : list string) :
  String.concat EmptyString l
  = String.concat EmptyString (firstn n l) ++ String.concat EmptyString (skipn n l).
Proof.
  now rewrite <- concat_empty_app, firstn_skipn.
Qed.

Lemma get_object (d : list (string * value)) (key : string) (default : value) :
  get (VDict d) key default = Ok (field d key default).
Proof.
  unfold get, field. now destruct (lookup key d).
Qed.

Lemma get_not_object (v : value) (key : string) (default : value) :
  (forall d, v <> VDict d) ->
  get v key default
  = Raise (AttributeError (sq ++ type_name v ++ "' object has no attribute 'get'")).
Proof.
  intros H. destruct v; try reflexivity. now destruct (H d).
Qed.

(** The loop on complete items appends their pairs, in order. *)
Lemma qa_loop_complete (items : list value) :
  forallb complete items = true ->
  forall user_context,
    qa_loop items user_context
    = Ok (user_context ++ String.concat EmptyString (map qa_pair items)).
Proof.
  induction items as [|item items IH]; intros Hall user_context.
  - simpl. now rewrite append_empty_r.
  - apply andb_prop in Hall as [Hitem Hrest].
    change (map qa_pair (item :: items)) with (qa_pair item :: map qa_pair items).
    rewrite concat_empty_cons.
    destruct item as [| | | | |l|d]; try discriminate Hitem.
    unfold complete in Hitem. cbn [qa_loop getitem].
    unfold qa_pair, field.
    destruct (lookup "question" d) as [q|]; [|discriminate Hitem].
    destruct (lookup "answer" d) as [a|]; [|discriminate Hitem].
    cbn [res_bind]. rewrite (IH Hrest).
    now rewrite !append_assoc.
Qed.

(** The loop stops at the first item that is not complete, with the
    exception the subscript on that item raises. *)
Lemma qa_loop_stops (good : list value) (item : value) (rest : list value) :
  forallb complete good = true ->
  complete item = false ->
  forall user_context,
    qa_loop (good ++ item :: rest)%list user_context = Raise (raised_by item).
Proof.
  induction good as [|g good IH]; intros Hall Hitem user_context.
  - cbn [app qa_loop].
    destruct item as [| | | | |l|d]; try reflexivity.
    unfold complete in Hitem. cbn [getitem raised_by].
    destruct (lookup "question" d) as [q|]; [|reflexivity].
    destruct (lookup "answer" d) as [a|]; [discriminate Hitem | reflexivity].
  - apply andb_prop in Hall as [Hg Hrest].
    change ((g :: good) ++ item :: rest)%list with (g :: (good ++ item :: rest))%list.
    destruct g as [| | | | |l|d]; try discriminate Hg.
    unfold complete in Hg. cbn [qa_loop getitem].
    destruct (lookup "question" d) as [q|]; [|discriminate Hg].
    destruct (lookup "answer" d) as [a|]; [|discriminate Hg].
    cbn [res_bind]. now apply IH.
Qed.

(** A view on a request that announces JSON and decodes to an object:
    either prompt construction raises, before anything is logged or sent,
    or the one guarded call is made. *)
Lemma handle_object (ep : Endpoint) (client : option ModelClient) (request : Request)
      (d : list (string * value)) :
  is_json request = true ->
  payload request = Decoded (VDict d) ->
  run (handle ep client request)
  = match user_context_of ep (field d "history" (VList [])) with
    | Raise e => (Raise e, world0)
    | Ok user_context => guarded_call ep client (call_of ep d user_context)
    end.
Proof.
  intros Hjson Hpayload.
  destruct ep; unfold handle, next_question, generate_report, run;
    rewrite Hjson; cbn [negb];
    unfold get_json; rewrite Hpayload;
    unfold bind, lift; rewrite !get_object;
    cbn [user_context_of].
  - destruct (next_question_user_context _) as [uc|e]; [|reflexivity].
    unfold try_except, guarded_call, bind.
    destruct client as [f|]; [|reflexivity].
    cbn [generate_content].
    change (next_question_call d uc) with
      (mkCall "gemini-2.5-flash" uc
         (mkConfig
            (next_question_sys_prompt (field d "name" (VStr "User"))
               (field d "age" (VInt 18)) (field d "gender" (VStr "Other"))
               (field d "language" (VStr "English")))
            "0.6" (Some "application/json") (Some QuestionResponse) None)).
    cbn [call_of next_question_call].
    destruct (f _); reflexivity.
  - destruct (generate_report_user_context _) as [uc|e]; [|reflexivity].
    unfold try_except, guarded_call, bind.
    destruct client as [f|]; [|reflexivity].
    cbn [generate_content call_of generate_report_call].
    destruct (f _); reflexivity.
Qed.

(** A view on any request: the two guards of the request, the field
    extraction, then [handle_object]. *)
Lemma handle_run (ep : Endpoint) (client : option ModelClient) (request : Request) :
  run (handle ep client request)
  = if is_json request then
      match payload request with
      | Undecodable description => (Raise (BadRequest description), world0)
      | Decoded (VDict d) =>
          match user_context_of ep (field d "history" (VList [])) with
          | Raise e => (Raise e, world0)
          | Ok user_context => guarded_call ep client (call_of ep d user_context)
          end
      | Decoded v =>
          (Raise (AttributeError (sq ++ type_name v ++ "' object has no attribute 'get'")),
           world0)
      end
    else (Raise (BadRequest "Invalid request format. Expected JSON."), world0).
Proof.
  destruct (is_json request) eqn:Hjson.
  - destruct (payload request) as [v|description] eqn:Hpayload.
    + destruct v as [| | | | |l|d];
        try (destruct ep; unfold handle, next_question, generate_report, run;
             rewrite Hjson; cbn [negb]; unfold get_json; rewrite Hpayload;
             reflexivity).
      now apply handle_object.
    + destruct ep; unfold handle, next_question, generate_report, run;
        rewrite Hjson; cbn [negb]; unfold get_json; rewrite Hpayload; reflexivity.
  - destruct ep; unfold handle, next_question, generate_report, run;
      rewrite Hjson; reflexivity.
Qed.

(** The calls a guarded call leaves: none without a client, else the one. *)
Lemma guarded_call_calls (ep : Endpoint) (client : option ModelClient) (c : Call) :
  calls (snd (guarded_call ep client c))
  = match client with
    | None => []
    | Some _ => [c]
    end.
Proof.
  unfold guarded_call. destruct client as [f|]; [|reflexivity].
  now destruct (f c).
Qed.

(** Every call a view makes is the call of its route, for the decoded
    object and the context built from its history. *)
Lemma handle_calls (ep : Endpoint) (client : option ModelClient) (request : Request)
      (c : Call) :
  In c (calls (snd (run (handle ep client request)))) ->
  exists f d user_context,
    client = Some f
    /\ is_json request = true
    /\ payload request = Decoded (VDict d)
    /\ user_context_of ep (field d "history" (VList [])) = Ok user_context
    /\ c = call_of ep d user_context
    /\ run (handle ep client request) = guarded_call ep client c.
Proof.
  rewrite handle_run.
  destruct (is_json request); [|intros []].
  destruct (payload request) as [v|description]; [|intros []].
  destruct v as [| | | | |l|d]; try (intros []).
  destruct (user_context_of ep _) as [uc|e] eqn:Huc; [|intros []].
  rewrite guarded_call_calls.
  destruct client as [f|]; [|intros []].
  intros [Hc|[]]. subst c.
  exists f, d, uc. repeat split; reflexivity || assumption.
Qed.

(** ** The user context (C2, C3) *)

Lemma user_context_complete (ep : Endpoint) (items : list value) :
  forallb complete items = true ->
  user_context_of ep (VList items)
  = Ok (context_header ep ++ String.concat EmptyString (map qa_pair items)
          ++ context_footer ep (List.length items)).
Proof.
  intros Hitems. destruct ep; cbn [user_context_of].
  - unfold next_question_user_context.
    destruct items as [|item items]; [reflexivity|].
    cbn [truthy negb py_iter py_len res_bind].
    rewrite (qa_loop_complete _ Hitems). cbn [res_bind context_header context_footer List.length].
    now rewrite !append_assoc.
  - unfold generate_report_user_context. cbn [py_iter res_bind].
    rewrite (qa_loop_complete _ Hitems). cbn [res_bind context_header context_footer].
    now rewrite !append_assoc.
Qed.

(** C2. For a history of N items, each an object with 'question' and
    'answer', the user context of either endpoint is its header, then the N
    pairs "Q: <question>\nA: <answer>\n" of the items in the order of the
    history, then its closing text; this is the [contents] of the call the
    endpoint makes. *)
Theorem C2_context_holds_the_pairs_in_order
        (ep : Endpoint) (items : list value)
        (Hitems : forallb complete items = true) :
  let pairs := map qa_pair items in
  List.length pairs = List.length items
  /\ (forall i, nth_error pairs i = option_map qa_pair (nth_error items i))
  /\ user_context_of ep (VList items)
     = Ok (context_header ep ++ String.concat EmptyString pairs
             ++ context_footer ep (List.length items))
  /\ (forall (f : ModelClient) (request : Request) (d : list (string * value)),
         is_json request = true ->
         payload request = Decoded (VDict d) ->
         lookup "history" d = Some (VList items) ->
         map contents (calls (snd (run (handle ep (Some f) request))))
         = [context_header ep ++ String.concat EmptyString pairs
              ++ context_footer ep (List.length items)]).
Proof.
  cbn zeta. repeat split.
  - apply length_map.
  - intros i. apply nth_error_map.
  - now apply user_context_complete.
  - intros f request d Hjson Hpayload Hhistory.
    rewrite (handle_object ep (Some f) request d Hjson Hpayload).
    unfold field. rewrite Hhistory, (user_context_complete ep items Hitems).
    rewrite guarded_call_calls. cbn [map].
    now destruct ep.
Qed.

Lemma C2_witness :
  forallb complete two_items = true
  /\ user_context_of GenerateReport (VList two_items)
     = Ok (context_header GenerateReport
             ++ String.concat EmptyString (map qa_pair two_items)
             ++ context_footer GenerateReport (List.length two_items))
  /\ map contents
       (calls (snd (run (handle GenerateReport (Some (answering "<h1>R</h1>"))
                           (json_request (VDict [("history", VList two_items)]))))))
     = [context_header GenerateReport
          ++ String.concat EmptyString (map qa_pair two_items)
          ++ context_footer GenerateReport (List.length two_items)].
Proof.
  split; [reflexivity|].
  destruct (C2_context_holds_the_pairs_in_order GenerateReport two_items eq_refl)
    as (_ & _ & Hcontext & Hsent).
  split; [exact Hcontext|].
  exact (Hsent (answering "<h1>R</h1>")
           (json_request (VDict [("history", VList two_items)]))
           [("history", VList two_items)] eq_refl eq_refl eq_refl).
Defined.

(** C3, as stated, fails: for the body [{"history": []}] the context sent is
    not the quoted sentence alone. *)
Lemma C3_counterexample :
  map contents
    (calls (snd (run (next_question (Some (answering EmptyString)) empty_history_request))))
  <> [first_question_text].
Proof.
  vm_compute. discriminate.
Qed.

(** C3, amended. For a POST to /api/next_question whose body is
    [{"history": []}], the user context is the header line
    "Q&A History so far:\n" followed by exactly the quoted sentence and a
    line feed. *)
Theorem C3_empty_history_context (f : ModelClient) :
  map contents (calls (snd (run (next_question (Some f) empty_history_request))))
  = ["Q&A History so far:" ++ nl ++ first_question_text].
Proof.
  change (next_question (Some f) empty_history_request)
    with (handle NextQuestion (Some f) empty_history_request).
  rewrite (handle_object NextQuestion (Some f) empty_history_request
             [("history", VList [])] eq_refl eq_refl).
  change (user_context_of NextQuestion (field [("history", VList [])] "history" (VList [])))
    with (Ok ("Q&A History so far:" ++ nl ++ first_question_text)).
  cbv iota. now rewrite guarded_call_calls.
Qed.

(** ** Failure of the model client (C4) *)

(** C4. For every request that reaches the model client (a request that
    announces JSON, decodes to an object and whose context is built) and for
    which the call the endpoint makes raises, the endpoint answers 500 with
    the JSON body [{"error": message}], where the message is exactly
    "Failed to calculate next question." for /api/next_question and
    "Failed to generate report." for /api/generate_report; that call is made
    once and is the only one (no retry), and the exception appears only in
    the one record logged, not in the response. *)
Theorem C4_client_failure_gives_fixed_500
        (ep : Endpoint) (f : ModelClient) (request : Request)
        (d : list (string * value)) (user_context : string) (e : exn)
        (Hjson : is_json request = true)
        (Hpayload : payload request = Decoded (VDict d))
        (Hcontext : user_context_of ep (field d "history" (VList [])) = Ok user_context)
        (Hfail : f (call_of ep d user_context) = Raise e) :
  run (handle ep (Some f) request)
  = (Ok {| status := 500;
           mimetype := "application/json";
           body := Json (VDict [("error",
                                 VStr match ep with
                                      | NextQuestion => "Failed to calculate next question."
                                      | GenerateReport => "Failed to generate report."
                                      end)]) |},
     {| calls := [call_of ep d user_context]; records := [failure_record ep e] |}).
Proof.
  rewrite (handle_object ep (Some f) request d Hjson Hpayload), Hcontext.
  unfold guarded_call. rewrite Hfail.
  now destruct ep.
Qed.

Lemma C4_witness :
  let f := failing "503 UNAVAILABLE" in
  let d := [("history", VList two_items)] in
  let request := json_request (VDict d) in
  let context ep :=
    context_header ep ++ String.concat EmptyString (map qa_pair two_items)
      ++ context_footer ep 2 in
  (forall ep, user_context_of ep (field d "history" (VList [])) = Ok (context ep))
  /\ (forall ep, f (call_of ep d (context ep)) = Raise (ClientError "503 UNAVAILABLE"))
  /\ run (handle NextQuestion (Some f) request)
     = (Ok {| status := 500;
              mimetype := "application/json";
              body := Json (VDict [("error", VStr "Failed to calculate next question.")]) |},
        {| calls := [call_of NextQuestion d (context NextQuestion)];
           records := [mkLogRecord
                         "Error in Gemini next_question: 503 UNAVAILABLE" false] |})
  /\ run (handle GenerateReport (Some f) request)
     = (Ok {| status := 500;
              mimetype := "application/json";
              body := Json (VDict [("error", VStr "Failed to generate report.")]) |},
        {| calls := [call_of GenerateReport d (context GenerateReport)];
           records := [mkLogRecord "Error generating report: 503 UNAVAILABLE" true] |}).
Proof.
  cbn zeta.
  split; [intros ep; destruct ep; reflexivity|].
  split; [intros ep; reflexivity|].
  split.
  - exact (C4_client_failure_gives_fixed_500 NextQuestion (failing "503 UNAVAILABLE")
             (json_request (VDict [("history", VList two_items)]))
             [("history", VList two_items)]
             (context_header NextQuestion
                ++ String.concat EmptyString (map qa_pair two_items)
                ++ context_footer NextQuestion 2)
             (ClientError "503 UNAVAILABLE") eq_refl eq_refl eq_refl eq_refl).
  - exact (C4_client_failure_gives_fixed_500 GenerateReport (failing "503 UNAVAILABLE")
             (json_request (VDict [("history", VList two_items)]))
             [("history", VList two_items)]
             (context_header GenerateReport
                ++ String.concat EmptyString (map qa_pair two_items)
                ++ context_footer GenerateReport 2)
             (ClientError "503 UNAVAILABLE") eq_refl eq_refl eq_refl eq_refl).
Defined.

(** ** Requests that are not JSON (C5) *)

(** C5, as stated, fails: a body that is not JSON, sent with a JSON content
    type, is rejected by [request.get_json()] with another message than
    "Invalid request format". *)
Lemma C5_counterexample :
  ~ exists description : string,
      fst (run (next_question None undecodable_request)) = Raise (BadRequest description)
      /\ String.prefix "Invalid request format" description = true.
Proof.
  intros (description & Hrun & Hprefix).
  vm_compute in Hrun. injection Hrun as <-.
  vm_compute in Hprefix. discriminate.
Qed.

(** C5, amended. A request to either endpoint that does not announce JSON,
    or that announces JSON with a body that does not decode, raises a
    [BadRequest] (status 400) before anything is sent or logged. When the
    request does not announce JSON the message is
    "Invalid request format. Expected JSON."; when the body does not decode
    the message is the one [request.get_json()] gives. *)
Theorem C5_not_json_is_bad_request
        (ep : Endpoint) (client : option ModelClient) (request : Request)
        (Hnot_json : is_json request = false
                     \/ exists description, payload request = Undecodable description) :
  exists description : string,
    run (handle ep client request) = (Raise (BadRequest description), world0)
    /\ status_of_exn (BadRequest description) = 400%Z
    /\ (is_json request = false -> description = "Invalid request format. Expected JSON.")
    /\ (is_json request = true -> payload request = Undecodable description).
Proof.
  rewrite handle_run.
  destruct (is_json request) eqn:Hjson.
  - destruct Hnot_json as [Hfalse|(description & Hpayload)]; [discriminate Hfalse|].
    rewrite Hpayload. exists description.
    split; [reflexivity|]. split; [reflexivity|].
    split; [discriminate | reflexivity].
  - exists "Invalid request format. Expected JSON.".
    split; [reflexivity|]. split; [reflexivity|].
    split; [reflexivity | discriminate].
Qed.

Lemma C5_witness :
  is_json (mkRequest false (Decoded VNone)) = false
  /\ exists description,
       run (handle NextQuestion None (mkRequest false (Decoded VNone)))
       = (Raise (BadRequest description), world0)
       /\ description = "Invalid request format. Expected JSON.".
Proof.
  split; [reflexivity|].
  destruct (C5_not_json_is_bad_request NextQuestion None
              (mkRequest false (Decoded VNone)) (or_introl eq_refl))
    as (description & Hrun & _ & Hmessage & _).
  exists description. split; [exact Hrun | exact (Hmessage eq_refl)].
Defined.

(** ** The response schema (C6) *)

Lemma has_type_Str (v : value) : has_type Str v = is_str v.
Proof. now destruct v. Qed.

Lemma all_have_type_Str (l : list value) : forallb (has_type Str) l = forallb is_str l.
Proof.
  induction l as [|v l IH]; [reflexivity|].
  cbn [forallb]. now rewrite has_type_Str, IH.
Qed.

(** C6, as stated, fails: [QuestionResponse] accepts a document whose
    [options] has fewer than 3 elements. *)
Lemma C6_counterexample :
  validates QuestionResponse no_options = true
  /\ question_with_3_to_4_options no_options = false.
Proof.
  split; reflexivity.
Qed.

(** C6, amended. [QuestionResponse], the schema /api/next_question hands to
    the model client with every call, accepts exactly the objects whose
    [question] is a string and whose [options] is a list of strings, of any
    length: the bound of 3 to 4 options is only the wording of the field's
    description and of the prompt. The text the client returns is the body
    of the response as it is. *)
Theorem C6_schema_constrains_shape_only :
  (forall v,
      validates QuestionResponse v = true <->
      exists d question options,
        v = VDict d
        /\ lookup "question" d = Some (VStr question)
        /\ lookup "options" d = Some (VList options)
        /\ forallb is_str options = true)
  /\ (forall n : nat,
         validates QuestionResponse
           (VDict [("question", VStr "Q"); ("options", VList (repeat (VStr "o") n))]) = true)
  /\ (forall (client : option ModelClient) (request : Request) (c : Call),
         In c (calls (snd (run (next_question client request)))) ->
         response_schema (config c) = Some QuestionResponse
         /\ forall text, client_returns client c text ->
              fst (run (next_question client request))
              = Ok {| status := 200; mimetype := "application/json"; body := Text text |}).
Proof.
  split; [|split].
  - intros v. split.
    + destruct v as [| | | | |l|d]; try discriminate.
      unfold validates, QuestionResponse. cbn [forallb field_name field_type field_info].
      destruct (lookup "question" d) as [q|] eqn:Hq; [|discriminate].
      destruct (lookup "options" d) as [o|] eqn:Ho;
        [|rewrite andb_false_r; discriminate].
      unfold within, Field. cbn [min_length max_length].
      destruct q; try discriminate.
      destruct o as [| | | | |options|]; try (rewrite andb_false_r; discriminate).
      cbn [has_type size andb]. rewrite !andb_true_r.
      rewrite all_have_type_Str.
      intros Hopts. exists d, s, options. now repeat split.
    + intros (d & q & options & -> & Hq & Ho & Hopts).
      unfold validates, QuestionResponse. cbn [forallb field_name field_type field_info].
      rewrite Hq, Ho. unfold within, Field. cbn [min_length max_length has_type size andb].
      rewrite !andb_true_r.
      now rewrite all_have_type_Str.
  - intros n. unfold validates, QuestionResponse.
    cbn [forallb field_name field_type field_info lookup String.eqb Ascii.eqb Bool.eqb].
    cbn. rewrite !andb_true_r.
    induction n as [|n IH]; [reflexivity | exact IH].
  - intros client request c Hcall.
    change (next_question client request) with (handle NextQuestion client request) in *.
    destruct (handle_calls NextQuestion client request c Hcall)
      as (f & d & uc & -> & _ & _ & _ & -> & Hrun).
    split; [reflexivity|].
    intros text Htext. rewrite Hrun. unfold guarded_call.
    cbn [client_returns] in Htext. now rewrite Htext.
Qed.

Lemma C6_witness :
  let client := Some (answering "{}") in
  let request := json_request (VDict []) in
  let c := next_question_call [] ("Q&A History so far:" ++ nl ++ first_question_text) in
  In c (calls (snd (run (next_question client request))))
  /\ client_returns client c "{}"
  /\ response_schema (config c) = Some QuestionResponse
  /\ fst (run (next_question client request))
     = Ok {| status := 200; mimetype := "application/json"; body := Text "{}" |}.
Proof.
  cbn zeta.
  assert (Hcall : In (next_question_call []
                        ("Q&A History so far:" ++ nl ++ first_question_text))
                     (calls (snd (run (next_question (Some (answering "{}"))
                                         (json_request (VDict [])))))))
    by (left; reflexivity).
  split; [exact Hcall|]. split; [reflexivity|].
  destruct (proj2 (proj2 C6_schema_constrains_shape_only)
              (Some (answering "{}")) (json_request (VDict [])) _ Hcall)
    as (Hschema & Hbody).
  split; [exact Hschema|].
  exact (Hbody "{}" eq_refl).
Defined.

(** ** The model of each endpoint (C7) *)



(** ** Malformed history and bodies (C8, C9) *)

(** C8, as stated, fails: the history below holds an item lacking both keys,
    and what prompt construction raises is not a [KeyError], because an item
    that is not an object comes first. *)
Lemma C8_counterexample :
  existsb lacks_key [VStr "x"; VDict []] = true
  /\ ~ exists key, fst (run (next_question None mixed_history_request)) = Raise (KeyError key).
Proof.
  split; [reflexivity|].
  intros (key & Hrun). vm_compute in Hrun. discriminate.
Qed.

(** C8, amended. For a request to either endpoint whose body is an object
    and whose history is a list, the first item that is not an object with
    both keys makes prompt construction raise, before the [try] block:
    nothing is sent to the model client, nothing is logged, and the view
    returns no response of its own. The exception is a [KeyError] of the
    first missing key when that item is an object lacking 'question' or
    'answer', and a [TypeError] when it is not an object; it is never the
    [BadRequest] of validation. *)
Theorem C8_incomplete_item_raises_uncaught
        (ep : Endpoint) (client : option ModelClient) (request : Request)
        (d : list (string * value)) (good : list value) (item : value) (rest : list value)
        (Hjson : is_json request = true)
        (Hpayload : payload request = Decoded (VDict d))
        (Hhistory : lookup "history" d = Some (VList (good ++ item :: rest)%list))
        (Hgood : forallb complete good = true)
        (Hitem : complete item = false) :
  exists e : exn,
    run (handle ep client request) = (Raise e, world0)
    /\ (lacks_key item = true ->
        exists key, e = KeyError key
                    /\ (key = "question" \/ key = "answer")
                    /\ getitem item key = Raise (KeyError key))
    /\ (lacks_key item = false -> exists msg, e = TypeError msg)
    /\ (forall description, e <> BadRequest description).
Proof.
  exists (raised_by item).
  split.
  - rewrite (handle_object ep client request d Hjson Hpayload).
    unfold field. rewrite Hhistory.
    destruct ep; cbn [user_context_of];
      unfold next_question_user_context, generate_report_user_context.
    + destruct good; cbn [app truthy negb py_iter res_bind];
        match goal with
        | |- context [qa_loop ?l ?u] =>
            first [ change l with ([] ++ item :: rest)%list
                  | change l with ((v :: good) ++ item :: rest)%list ]
        end;
        now rewrite qa_loop_stops.
    + cbn [py_iter res_bind]. now rewrite qa_loop_stops.
  - destruct item as [| | | | |l|d']; cbn [lacks_key raised_by];
      try (split; [discriminate | split; [intros _; eexists; reflexivity | discriminate]]).
    unfold complete in Hitem.
    destruct (lookup "question" d') as [q|] eqn:Hq.
    + destruct (lookup "answer" d') as [a|] eqn:Ha; [discriminate Hitem|].
      split; [|split; [discriminate | discriminate]].
      intros _. exists "answer". split; [reflexivity|]. split; [now right|].
      cbn [getitem]. now rewrite Ha.
    + split; [|split; [discriminate | discriminate]].
      intros _. exists "question". split; [reflexivity|]. split; [now left|].
      cbn [getitem]. now rewrite Hq.
Qed.

Lemma C8_witness :
  let request :=
    json_request (VDict [("history", VList (two_items ++ [VDict [("question", VStr "q")]]))]) in
  is_json request = true
  /\ forallb complete two_items = true
  /\ complete (VDict [("question", VStr "q")]) = false
  /\ exists e, run (handle GenerateReport (Some (answering "r")) request) = (Raise e, world0)
               /\ e = KeyError "answer".
Proof.
  cbn zeta. split; [reflexivity|]. split; [reflexivity|]. split; [reflexivity|].
  destruct (C8_incomplete_item_raises_uncaught GenerateReport (Some (answering "r"))
              (json_request
                 (VDict [("history", VList (two_items ++ [VDict [("question", VStr "q")]]))]))
              [("history", VList (two_items ++ [VDict [("question", VStr "q")]]))]
              two_items (VDict [("question", VStr "q")]) []
              eq_refl eq_refl eq_refl eq_refl eq_refl)
    as (e & Hrun & _ & _ & _).
  exists e. split; [exact Hrun|].
  vm_compute in Hrun. now injection Hrun as <-.
Defined.

(** C9. For a request to either endpoint that announces JSON and whose body
    decodes to a value that is not an object (a list, a number, a string, a
    boolean or null), the first field extraction raises an [AttributeError]
    outside the [try] block: nothing is sent or logged, and the view returns
    neither the 400 of validation nor its generic 500 response. *)
Theorem C9_non_object_body_raises_attribute_error
        (ep : Endpoint) (client : option ModelClient) (request : Request) (v : value)
        (Hjson : is_json request = true)
        (Hpayload : payload request = Decoded v)
        (Hnot_object : forall d, v <> VDict d) :
  run (handle ep client request)
  = (Raise (AttributeError (sq ++ type_name v ++ "' object has no attribute 'get'")),
     world0).
Proof.
  rewrite handle_run, Hjson, Hpayload.
  destruct v; try reflexivity.
  now destruct (Hnot_object d).
Qed.

Lemma C9_witness :
  (forall d, VList [VInt 1] <> VDict d)
  /\ run (handle NextQuestion (Some (answering "{}")) (json_request (VList [VInt 1])))
     = (Raise (AttributeError "'list' object has no attribute 'get'"), world0).
Proof.
  assert (H : forall d, VList [VInt 1] <> VDict d) by (intros d; discriminate).
  split; [exact H|].
  exact (C9_non_object_body_raises_attribute_error NextQuestion (Some (answering "{}"))
           (json_request (VList [VInt 1])) (VList [VInt 1]) eq_refl eq_refl H).
Defined.

(** ** Defaults of the profile fields (C1, C10) *)




(** C1 at the body [{}]: /api/next_question sends the documented defaults
    (name "User", age 18, gender "Other", language "English", empty history),
    while /api/generate_report sends [None] for the age and for the gender:
    its prompt is not the one the documented defaults 18 and "Other" give. *)
Theorem C1_generate_report_leaves_age_and_gender_without_default (f : ModelClient) :
  calls (snd (run (next_question (Some f) (json_request (VDict [])))))
  = [ mkCall "gemini-2.5-flash"
        ("Q&A History so far:" ++ nl ++ first_question_text)
        (mkConfig
           (next_question_sys_prompt (VStr "User") (VInt 18) (VStr "Other") (VStr "English"))
           "0.6" (Some "application/json") (Some QuestionResponse) None) ]
  /\ calls (snd (run (generate_report (Some f) (json_request (VDict [])))))
     = [ mkCall MODEL_NAME
           ("User's Q&A History:" ++ nl ++ nl
              ++ "Generate the final counseling report and course pitch.")
           (mkConfig
              (generate_report_sys_prompt (VStr "User") VNone VNone (VStr "English"))
              "0.4" None None (Some 8192%Z)) ]
  /\ generate_report_sys_prompt (VStr "User") VNone VNone (VStr "English")
     <> generate_report_sys_prompt (VStr "User") (VInt 18) (VStr "Other") (VStr "English").
Proof.
  split; [|split].
  - change (next_question (Some f) (json_request (VDict [])))
      with (handle NextQuestion (Some f) (json_request (VDict []))).
    rewrite (handle_object NextQuestion (Some f) (json_request (VDict [])) []
               eq_refl eq_refl).
    change (user_context_of NextQuestion (field [] "history" (VList [])))
      with (Ok ("Q&A History so far:" ++ nl ++ first_question_text)).
    cbv iota. now rewrite guarded_call_calls.
  - change (generate_report (Some f) (json_request (VDict [])))
      with (handle GenerateReport (Some f) (json_request (VDict []))).
    rewrite (handle_object GenerateReport (Some f) (json_request (VDict [])) []
               eq_refl eq_refl).
    change (user_context_of GenerateReport (field [] "history" (VList [])))
      with (Ok ("User's Q&A History:" ++ nl ++ nl
                  ++ "Generate the final counseling report and course pitch.")).
    cbv iota. now rewrite guarded_call_calls.
  - intros Heq.
    assert (Hneq : String.eqb
                     (generate_report_sys_prompt (VStr "User") VNone VNone (VStr "English"))
                     (generate_report_sys_prompt (VStr "User") (VInt 18) (VStr "Other")
                        (VStr "English")) = false)
      by (vm_compute; reflexivity).
    rewrite Heq, String.eqb_refl in Hneq. discriminate Hneq.
Qed.

(** ** What a view returns, raises and leaves behind *)

Lemma getitem_raises (item : value) (key : string) (e : exn) :
  getitem item key = Raise e ->
  (exists k, e = KeyError k) \/ (exists m, e = TypeError m).
Proof.
  destruct item as [| | | | |l|d]; cbn [getitem];
    try (intros [= <-]; right; eexists; reflexivity).
  destruct (lookup key d); [discriminate|].
  intros [= <-]. left. eexists. reflexivity.
Qed.

Lemma qa_loop_raises (items : list value) :
  forall user_context e,
    qa_loop items user_context = Raise e ->
    (exists k, e = KeyError k) \/ (exists m, e = TypeError m).
Proof.
  induction items as [|item items IH]; intros user_context e; cbn [qa_loop].
  - discriminate.
  - destruct (getitem item "question") as [q|eq] eqn:Hq; cbn [res_bind].
    + destruct (getitem item "answer") as [a|ea] eqn:Ha; cbn [res_bind].
      * apply IH.
      * intros [= <-]. exact (getitem_raises _ _ _ Ha).
    + intros [= <-]. exact (getitem_raises _ _ _ Hq).
Qed.

Lemma py_iter_raises (v : value) (e : exn) :
  py_iter v = Raise e -> exists m, e = TypeError m.
Proof.
  destruct v; cbn [py_iter]; try discriminate; intros [= <-]; eexists; reflexivity.
Qed.

Lemma py_len_raises (v : value) (e : exn) :
  py_len v = Raise e -> exists m, e = TypeError m.
Proof.
  destruct v; cbn [py_len]; try discriminate; intros [= <-]; eexists; reflexivity.
Qed.

(** Prompt construction raises nothing but [KeyError] and [TypeError]. *)
Lemma user_context_raises (ep : Endpoint) (history : value) (e : exn) :
  user_context_of ep history = Raise e ->
  (exists k, e = KeyError k) \/ (exists m, e = TypeError m).
Proof.
  destruct ep; cbn [user_context_of];
    unfold next_question_user_context, generate_report_user_context.
  - destruct (negb (truthy history)); [discriminate|].
    destruct (py_iter history) as [items|ei] eqn:Hiter; cbn [res_bind].
    + destruct (qa_loop items _) as [uc|el] eqn:Hloop; cbn [res_bind].
      * destruct (py_len history) as [n|en] eqn:Hlen; cbn [res_bind]; [discriminate|].
        intros [= <-]. right. exact (py_len_raises _ _ Hlen).
      * intros [= <-]. exact (qa_loop_raises _ _ _ Hloop).
    + intros [= <-]. right. exact (py_iter_raises _ _ Hiter).
  - destruct (py_iter history) as [items|ei] eqn:Hiter; cbn [res_bind].
    + destruct (qa_loop items _) as [uc|el] eqn:Hloop; cbn [res_bind]; [discriminate|].
      intros [= <-]. exact (qa_loop_raises _ _ _ Hloop).
    + intros [= <-]. right. exact (py_iter_raises _ _ Hiter).
Qed.

(** X1. Whatever the request and the client, a response a view returns is
    one of two: the 200 that carries the text the model client returned for
    the one call made (as the raw body for /api/next_question, as
    [{"report": text}] for /api/generate_report), with nothing logged; or
    the 500 with [{"error": fixed message}], with one record logged and at
    most one call made. *)
Theorem X1_response_is_success_or_fixed_error
        (ep : Endpoint) (client : option ModelClient) (request : Request)
        (response : Response) (w : World)
        (Hrun : run (handle ep client request) = (Ok response, w)) :
  (exists c text,
      client_returns client c text
      /\ w = {| calls := [c]; records := [] |}
      /\ response
         = {| status := 200;
              mimetype := "application/json";
              body := match ep with
                      | NextQuestion => Text text
                      | GenerateReport => Json (VDict [("report", VStr text)])
                      end |})
  \/ (response
      = {| status := 500;
           mimetype := "application/json";
           body := Json (VDict [("error",
                                 VStr match ep with
                                      | NextQuestion => "Failed to calculate next question."
                                      | GenerateReport => "Failed to generate report."
                                      end)]) |}
      /\ (exists e, records w = [failure_record ep e])
      /\ List.length (calls w) <= 1).
Proof.
  rewrite handle_run in Hrun.
  destruct (is_json request); [|discriminate Hrun].
  destruct (payload request) as [v|description]; [|discriminate Hrun].
  destruct v as [| | | | |l|d]; try discriminate Hrun.
  destruct (user_context_of ep _) as [uc|e]; [|discriminate Hrun].
  unfold guarded_call in Hrun.
  destruct client as [f|].
  - destruct (f (call_of ep d uc)) as [text|e] eqn:Hf; injection Hrun as <- <-.
    + left. exists (call_of ep d uc), text. cbn [client_returns].
      split; [exact Hf|]. split; [reflexivity|]. now destruct ep.
    + right. split; [now destruct ep|]. split; [now exists e|]. cbn. lia.
  - injection Hrun as <- <-. right.
    split; [now destruct ep|]. split; [eexists; reflexivity|]. cbn. lia.
Qed.

Lemma X1_witness :
  run (handle GenerateReport (Some (answering "<h1>R</h1>")) (json_request (VDict [])))
  = (Ok (jsonify (VDict [("report", VStr "<h1>R</h1>")])),
     {| calls := [generate_report_call []
                    ("User's Q&A History:" ++ nl ++ nl
                       ++ "Generate the final counseling report and course pitch.")];
        records := [] |})
  /\ exists c text,
       client_returns (Some (answering "<h1>R</h1>")) c text
       /\ jsonify (VDict [("report", VStr "<h1>R</h1>")])
          = {| status := 200; mimetype := "application/json";
               body := Json (VDict [("report", VStr text)]) |}.
Proof.
  assert (Hrun : run (handle GenerateReport (Some (answering "<h1>R</h1>"))
                        (json_request (VDict [])))
                 = (Ok (jsonify (VDict [("report", VStr "<h1>R</h1>")])),
                    {| calls := [generate_report_call []
                                   ("User's Q&A History:" ++ nl ++ nl
                                      ++ "Generate the final counseling report and course pitch.")];
                       records := [] |}))
    by reflexivity.
  split; [exact Hrun|].
  destruct (X1_response_is_success_or_fixed_error GenerateReport _ _ _ _ Hrun)
    as [(c & text & Hreturns & _ & Hresponse)|(Hresponse & _)].
  - exists c, text. split; [exact Hreturns | exact Hresponse].
  - discriminate Hresponse.
Defined.

(** X2. When a view raises, it does so before the [try] block: nothing has
    been sent to the model client and nothing has been logged, and the
    exception is a [BadRequest], an [AttributeError], a [KeyError] or a
    [TypeError]. An exception of the model client never escapes a view. *)
Theorem X2_view_raises_only_before_the_model_call
        (ep : Endpoint) (client : option ModelClient) (request : Request)
        (e : exn) (w : World)
        (Hrun : run (handle ep client request) = (Raise e, w)) :
  w = world0
  /\ ((exists description, e = BadRequest description)
      \/ (exists m, e = AttributeError m)
      \/ (exists key, e = KeyError key)
      \/ (exists m, e = TypeError m))
  /\ (forall m, e <> ClientError m).
Proof.
  assert (Hkind : w = world0
                  /\ ((exists description, e = BadRequest description)
                      \/ (exists m, e = AttributeError m)
                      \/ (exists key, e = KeyError key)
                      \/ (exists m, e = TypeError m))).
  { rewrite handle_run in Hrun.
    destruct (is_json request).
    - destruct (payload request) as [v|description].
      + destruct v as [| | | | |l|d];
          try (injection Hrun as <- <-; split;
               [reflexivity | right; left; eexists; reflexivity]).
        destruct (user_context_of ep _) as [uc|e'] eqn:Huc.
        * unfold guarded_call in Hrun.
          destruct client as [f|]; [|discriminate Hrun].
          destruct (f _); discriminate Hrun.
        * injection Hrun as <- <-. split; [reflexivity|].
          destruct (user_context_raises _ _ _ Huc) as [Hk|Ht]; auto.
      + injection Hrun as <- <-. split; [reflexivity|]. left. eexists. reflexivity.
    - injection Hrun as <- <-. split; [reflexivity|]. left. eexists. reflexivity. }
  destruct Hkind as (Hw & Hkind). split; [exact Hw|]. split; [exact Hkind|].
  intros m ->.
  destruct Hkind as [(x & H)|[(x & H)|[(x & H)|(x & H)]]]; discriminate H.
Qed.

Lemma X2_witness :
  run (handle NextQuestion (Some (failing "503 UNAVAILABLE"))
         (json_request (VDict [("history", VInt 7)])))
  = (Raise (TypeError "'int' object is not iterable"), world0)
  /\ forall m, TypeError "'int' object is not iterable" <> ClientError m.
Proof.
  assert (Hrun : run (handle NextQuestion (Some (failing "503 UNAVAILABLE"))
                        (json_request (VDict [("history", VInt 7)])))
                 = (Raise (TypeError "'int' object is not iterable"), world0))
    by reflexivity.
  split; [exact Hrun|].
  exact (proj2 (proj2 (X2_view_raises_only_before_the_model_call _ _ _ _ _ Hrun))).
Defined.

(** X3. No request makes a view call the model client more than once or log
    more than one record, and a record is logged only together with the 500
    response. *)
Theorem X3_at_most_one_call_and_one_record
        (ep : Endpoint) (client : option ModelClient) (request : Request) :
  List.length (calls (snd (run (handle ep client request)))) <= 1
  /\ List.length (records (snd (run (handle ep client request)))) <= 1
  /\ (records (snd (run (handle ep client request))) <> [] ->
      exists response,
        fst (run (handle ep client request)) = Ok response /\ status response = 500%Z).
Proof.
  rewrite handle_run.
  destruct (is_json request); [|cbn; repeat split; try lia; now intros []].
  destruct (payload request) as [v|description];
    [|cbn; repeat split; try lia; now intros []].
  destruct v as [| | | | |l|d]; try (cbn; repeat split; try lia; now intros []).
  destruct (user_context_of ep _) as [uc|e];
    [|cbn; repeat split; try lia; now intros []].
  unfold guarded_call.
  destruct client as [f|].
  - destruct (f _) as [text|e]; cbn [snd fst calls records List.length].
    + repeat split; try lia. now intros [].
    + repeat split; try lia. intros _. eexists. split; reflexivity.
  - cbn [snd fst calls records List.length].
    repeat split; try lia. intros _. eexists. split; reflexivity.
Qed.

(** ** Histories that are not lists of complete items *)

(** X4. /api/next_question takes every falsy history — [null], [false], 0,
    0.0, the empty string, the empty object, like the empty list — as no
    history at all: the context sent is the header and the first-question
    sentence, and no exception is raised. *)
Theorem X4_next_question_takes_falsy_history_as_none
        (f : ModelClient) (request : Request) (d : list (string * value))
        (Hjson : is_json request = true)
        (Hpayload : payload request = Decoded (VDict d))
        (Hfalsy : truthy (field d "history" (VList [])) = false) :
  map contents (calls (snd (run (next_question (Some f) request))))
  = ["Q&A History so far:" ++ nl ++ first_question_text]
  /\ exists response, fst (run (next_question (Some f) request)) = Ok response.
Proof.
  change (next_question (Some f) request) with (handle NextQuestion (Some f) request).
  rewrite (handle_object NextQuestion (Some f) request d Hjson Hpayload).
  cbn [user_context_of]. unfold next_question_user_context. rewrite Hfalsy. cbn [negb].
  split.
  - now rewrite guarded_call_calls.
  - unfold guarded_call. destruct (f _); eexists; reflexivity.
Qed.

Lemma X4_witness :
  truthy (field [("history", VNone)] "history" (VList [])) = false
  /\ map contents
       (calls (snd (run (next_question (Some (answering "{}"))
                           (json_request (VDict [("history", VNone)]))))))
     = ["Q&A History so far:" ++ nl ++ first_question_text].
Proof.
  split; [reflexivity|].
  exact (proj1 (X4_next_question_takes_falsy_history_as_none (answering "{}")
                  (json_request (VDict [("history", VNone)])) [("history", VNone)]
                  eq_refl eq_refl eq_refl)).
Defined.

(** X5. A history that is not a list makes prompt construction raise an
    uncaught [TypeError], before anything is sent or logged, whenever the
    loop over it is reached with something to visit or nothing to iterate:
    on both endpoints when it is truthy (a number, [true], a non-empty
    string, a non-empty object), and on /api/generate_report also when it
    is [null], [false] or a zero. *)
Theorem X5_history_that_is_not_a_list_raises_type_error
        (ep : Endpoint) (client : option ModelClient) (request : Request)
        (d : list (string * value)) (history : value)
        (Hjson : is_json request = true)
        (Hpayload : payload request = Decoded (VDict d))
        (Hhistory : lookup "history" d = Some history)
        (Hnot_list : forall l, history <> VList l)
        (Hreached : truthy history = true
                    \/ (ep = GenerateReport /\ forall items, py_iter history <> Ok items)) :
  exists m, run (handle ep client request) = (Raise (TypeError m), world0).
Proof.
  rewrite (handle_object ep client request d Hjson Hpayload).
  unfold field. rewrite Hhistory.
  assert (Hloop : truthy history = true \/ (forall items, py_iter history <> Ok items) ->
                  forall user_context,
                  exists m,
                    (items <~ py_iter history ;; qa_loop items user_context)
                    = Raise (TypeError m)).
  { intros Hcase user_context.
    destruct history as [|b|z|x|s|l|o]; cbn [py_iter res_bind];
      try (eexists; reflexivity).
    - destruct Hcase as [Htruthy|Hnone]; [|now destruct (Hnone (chars s))].
      destruct s as [|a s]; [discriminate Htruthy|].
      cbn [chars qa_loop getitem res_bind]. eexists. reflexivity.
    - now destruct (Hnot_list l).
    - destruct Hcase as [Htruthy|Hnone];
        [|now destruct (Hnone (map (fun kv => VStr (fst kv)) o))].
      destruct o as [|[k v] o]; [discriminate Htruthy|].
      cbn [map fst qa_loop getitem res_bind]. eexists. reflexivity. }
  destruct ep; cbn [user_context_of];
    unfold next_question_user_context, generate_report_user_context.
  - destruct Hreached as [Htruthy|[Hep _]]; [|discriminate Hep].
    rewrite Htruthy. cbn [negb].
    destruct (Hloop (or_introl Htruthy) ("Q&A History so far:" ++ nl)) as (m & Hm).
    exists m.
    destruct (py_iter history) as [items|e]; cbn [res_bind] in *.
    + now rewrite Hm.
    + now injection Hm as ->.
  - assert (Hcase : truthy history = true \/ (forall items, py_iter history <> Ok items))
      by (destruct Hreached as [Ht|[_ Hn]]; auto).
    destruct (Hloop Hcase ("User's Q&A History:" ++ nl)) as (m & Hm).
    exists m.
    destruct (py_iter history) as [items|e]; cbn [res_bind] in *.
    + now rewrite Hm.
    + now injection Hm as ->.
Qed.

Lemma X5_witness :
  (forall l, VNone <> VList l)
  /\ (forall items, py_iter VNone <> Ok items)
  /\ run (handle GenerateReport (Some (answering "r"))
            (json_request (VDict [("history", VNone)])))
     = (Raise (TypeError "'NoneType' object is not iterable"), world0).
Proof.
  assert (Hnot_list : forall l, VNone <> VList l) by (intros l; discriminate).
  assert (Hnone : forall items, py_iter VNone <> Ok items) by (intros items; discriminate).
  split; [exact Hnot_list|]. split; [exact Hnone|].
  destruct (X5_history_that_is_not_a_list_raises_type_error GenerateReport
              (Some (answering "r")) (json_request (VDict [("history", VNone)]))
              [("history", VNone)] VNone eq_refl eq_refl eq_refl Hnot_list
              (or_intror (conj eq_refl Hnone))) as (m & Hrun).
  rewrite Hrun. vm_compute in Hrun. now injection Hrun as <-.
Defined.

(** ** The prompts and the call *)

(** The interview prompt is a fixed text with five replacement fields: the
    four of the user-profile line and the language of the last rule. *)
Lemma next_question_sys_prompt_structure :
  exists pre mid,
    forall name age gender language,
      next_question_sys_prompt name age gender language
      = pre ++ question_profile_line (py_str name) (py_str age) (py_str gender)
                 (py_str language)
          ++ mid ++ question_language_rule (py_str language).
Proof.
  eexists. eexists. intros name age gender language.
  unfold next_question_sys_prompt.
  etransitivity; [apply (concat_empty_split 5)|]. cbn [firstn skipn].
  f_equal.
  etransitivity; [apply (concat_empty_split 10)|]. cbn [firstn skipn].
  f_equal.
  etransitivity; [apply (concat_empty_split 31)|]. cbn [firstn skipn].
  f_equal.
Qed.

(** The report prompt is a fixed text with five replacement fields: the four
    of the user-profile line and the language of the language rule. *)
Lemma generate_report_sys_prompt_structure :
  exists pre mid post,
    forall name age gender language,
      generate_report_sys_prompt name age gender language
      = pre ++ report_profile_line (py_str name) (py_str age) (py_str gender)
                 (py_str language)
          ++ mid ++ report_language_rule (py_str language) ++ post.
Proof.
  eexists. eexists. eexists. intros name age gender language.
  unfold generate_report_sys_prompt.
  etransitivity; [apply (concat_empty_split 6)|]. cbn [firstn skipn].
  f_equal.
  etransitivity; [apply (concat_empty_split 10)|]. cbn [firstn skipn].
  f_equal.
  etransitivity; [apply (concat_empty_split 23)|]. cbn [firstn skipn].
  f_equal.
  etransitivity; [apply (concat_empty_split 4)|]. cbn [firstn skipn].
  f_equal.
Qed.

(** X6. The system prompt /api/next_question sends is one fixed text in
    which the request shows at five places only: name, age, gender and
    language in the user-profile line and the language again in the last
    rule, each printed by [str()]. A key that is present is used as it is,
    even when it is [null]; the default (User, 18, Other, English) stands
    in only for a key that is absent. *)
Theorem X6_question_prompt_shows_the_profile_at_five_places :
  exists pre mid,
    forall (client : option ModelClient) (request : Request)
           (d : list (string * value)) (c : Call),
      is_json request = true ->
      payload request = Decoded (VDict d) ->
      In c (calls (snd (run (next_question client request)))) ->
      system_instruction (config c)
      = pre
          ++ question_profile_line
               (py_str match lookup "name" d with Some v => v | None => VStr "User" end)
               (py_str match lookup "age" d with Some v => v | None => VInt 18 end)
               (py_str match lookup "gender" d with Some v => v | None => VStr "Other" end)
               (py_str match lookup "language" d with Some v => v | None => VStr "English" end)
          ++ mid
          ++ question_language_rule
               (py_str match lookup "language" d with Some v => v | None => VStr "English" end).
Proof.
  destruct next_question_sys_prompt_structure as (pre & mid & Hprompt).
  exists pre, mid. intros client request d c Hjson Hpayload Hcall.
  change (next_question client request) with (handle NextQuestion client request) in Hcall.
  destruct (handle_calls _ _ _ _ Hcall) as (f & d' & uc & _ & _ & Hd' & _ & -> & _).
  rewrite Hpayload in Hd'. injection Hd' as <-.
  cbn [call_of next_question_call config system_instruction].
  now rewrite Hprompt.
Qed.

Lemma X6_witness :
  let d := [("name", VStr "Asha"); ("age", VNone); ("language", VStr "Hindi")] in
  let c := next_question_call d ("Q&A History so far:" ++ nl ++ first_question_text) in
  In c (calls (snd (run (next_question (Some (answering "{}")) (json_request (VDict d))))))
  /\ exists pre mid,
       system_instruction (config c)
       = pre ++ question_profile_line "Asha" "None" "Other" "Hindi"
           ++ mid ++ question_language_rule "Hindi".
Proof.
  cbn zeta.
  assert (Hcall : In (next_question_call
                        [("name", VStr "Asha"); ("age", VNone); ("language", VStr "Hindi")]
                        ("Q&A History so far:" ++ nl ++ first_question_text))
                     (calls (snd (run (next_question (Some (answering "{}"))
                                         (json_request
                                            (VDict [("name", VStr "Asha"); ("age", VNone);
                                                    ("language", VStr "Hindi")])))))))
    by (left; reflexivity).
  split; [exact Hcall|].
  destruct X6_question_prompt_shows_the_profile_at_five_places as (pre & mid & Hprompt).
  exists pre, mid.
  exact (Hprompt (Some (answering "{}"))
           (json_request
              (VDict [("name", VStr "Asha"); ("age", VNone); ("language", VStr "Hindi")]))
           [("name", VStr "Asha"); ("age", VNone); ("language", VStr "Hindi")]
           _ eq_refl eq_refl Hcall).
Defined.

(** X7. The system prompt /api/generate_report sends is one fixed text in
    which the request shows at five places only: name, age, gender and
    language in the user-profile line and the language again in the language
    rule. The name defaults to User and the language to English when the
    key is absent; the age and the gender have no default and print as
    None then. *)
Theorem X7_report_prompt_shows_the_profile_at_five_places :
  exists pre mid post,
    forall (client : option ModelClient) (request : Request)
           (d : list (string * value)) (c : Call),
      is_json request = true ->
      payload request = Decoded (VDict d) ->
      In c (calls (snd (run (generate_report client request)))) ->
      system_instruction (config c)
      = pre
          ++ report_profile_line
               (py_str match lookup "name" d with Some v => v | None => VStr "User" end)
               (py_str match lookup "age" d with Some v => v | None => VNone end)
               (py_str match lookup "gender" d with Some v => v | None => VNone end)
               (py_str match lookup "language" d with Some v => v | None => VStr "English" end)
          ++ mid
          ++ report_language_rule
               (py_str match lookup "language" d with Some v => v | None => VStr "English" end)
          ++ post.
Proof.
  destruct generate_report_sys_prompt_structure as (pre & mid & post & Hprompt).
  exists pre, mid, post. intros client request d c Hjson Hpayload Hcall.
  change (generate_report client request) with (handle GenerateReport client request) in Hcall.
  destruct (handle_calls _ _ _ _ Hcall) as (f & d' & uc & _ & _ & Hd' & _ & -> & _).
  rewrite Hpayload in Hd'. injection Hd' as <-.
  cbn [call_of generate_report_call config system_instruction].
  now rewrite Hprompt.
Qed.

Lemma X7_witness :
  let d := [("age", VInt 21); ("language", VStr "Hindi")] in
  let c := generate_report_call d
             ("User's Q&A History:" ++ nl ++ nl
                ++ "Generate the final counseling report and course pitch.") in
  In c (calls (snd (run (generate_report (Some (answering "r")) (json_request (VDict d))))))
  /\ exists pre mid post,
       system_instruction (config c)
       = pre ++ report_profile_line "User" "21" "None" "Hindi"
           ++ mid ++ report_language_rule "Hindi" ++ post.
Proof.
  cbn zeta.
  assert (Hcall : In (generate_report_call [("age", VInt 21); ("language", VStr "Hindi")]
                        ("User's Q&A History:" ++ nl ++ nl
                           ++ "Generate the final counseling report and course pitch."))
                     (calls (snd (run (generate_report (Some (answering "r"))
                                         (json_request
                                            (VDict [("age", VInt 21);
                                                    ("language", VStr "Hindi")])))))))
    by (left; reflexivity).
  split; [exact Hcall|].
  destruct X7_report_prompt_shows_the_profile_at_five_places as (pre & mid & post & Hprompt).
  exists pre, mid, post.
  exact (Hprompt (Some (answering "r"))
           (json_request (VDict [("age", VInt 21); ("language", VStr "Hindi")]))
           [("age", VInt 21); ("language", VStr "Hindi")]
           _ eq_refl eq_refl Hcall).
Defined.

(** X8. Every call a view makes carries the settings of its endpoint,
    whatever the request: /api/next_question asks at temperature 0.6 for
    JSON constrained by [QuestionResponse], with no bound on the output;
    /api/generate_report asks at temperature 0.4 for free text of at most
    8192 output tokens, with no schema. *)
Theorem X8_every_call_carries_the_settings_of_its_endpoint
        (ep : Endpoint) (client : option ModelClient) (request : Request) (c : Call)
        (Hcall : In c (calls (snd (run (handle ep client request))))) :
  match ep with
  | NextQuestion =>
      temperature (config c) = "0.6"
      /\ response_mime_type (config c) = Some "application/json"
      /\ response_schema (config c) = Some QuestionResponse
      /\ max_output_tokens (config c) = None
  | GenerateReport =>
      temperature (config c) = "0.4"
      /\ response_mime_type (config c) = None
      /\ response_schema (config c) = None
      /\ max_output_tokens (config c) = Some 8192%Z
  end.
Proof.
  destruct (handle_calls _ _ _ _ Hcall) as (f & d & uc & _ & _ & _ & _ & -> & _).
  destruct ep; repeat split.
Qed.

Lemma X8_witness :
  let c := generate_report_call []
             ("User's Q&A History:" ++ nl ++ nl
                ++ "Generate the final counseling report and course pitch.") in
  In c (calls (snd (run (handle GenerateReport (Some (answering "r"))
                           (json_request (VDict []))))))
  /\ max_output_tokens (config c) = Some 8192%Z.
Proof.
  cbn zeta.
  assert (Hcall : In (generate_report_call []
                        ("User's Q&A History:" ++ nl ++ nl
                           ++ "Generate the final counseling report and course pitch."))
                     (calls (snd (run (handle GenerateReport (Some (answering "r"))
                                         (json_request (VDict [])))))))
    by (left; reflexivity).
  split; [exact Hcall|].
  exact (proj2 (proj2 (proj2
           (X8_every_call_carries_the_settings_of_its_endpoint GenerateReport _ _ _ Hcall)))).
Defined.

(** X9. The profile and the history do not mix: two requests to the same
    endpoint with the same four profile keys send the same configuration
    (system prompt included) whatever their histories, and two requests with
    the same history send the same contents whatever their profiles. *)
Theorem X9_profile_and_history_do_not_mix
        (ep : Endpoint) (client1 client2 : option ModelClient)
        (request1 request2 : Request) (d1 d2 : list (string * value)) (c1 c2 : Call)
        (Hjson1 : is_json request1 = true)
        (Hpayload1 : payload request1 = Decoded (VDict d1))
        (Hcall1 : In c1 (calls (snd (run (handle ep client1 request1)))))
        (Hjson2 : is_json request2 = true)
        (Hpayload2 : payload request2 = Decoded (VDict d2))
        (Hcall2 : In c2 (calls (snd (run (handle ep client2 request2))))) :
  ((forall key, In key ["language"; "name"; "age"; "gender"] ->
                lookup key d1 = lookup key d2) ->
   config c1 = config c2)
  /\ (lookup "history" d1 = lookup "history" d2 -> contents c1 = contents c2).
Proof.
  destruct (handle_calls _ _ _ _ Hcall1) as (f1 & d1' & uc1 & _ & _ & Hd1 & Huc1 & -> & _).
  destruct (handle_calls _ _ _ _ Hcall2) as (f2 & d2' & uc2 & _ & _ & Hd2 & Huc2 & -> & _).
  rewrite Hpayload1 in Hd1. injection Hd1 as <-.
  rewrite Hpayload2 in Hd2. injection Hd2 as <-.
  split.
  - intros Hsame.
    assert (Hl : lookup "language" d1 = lookup "language" d2) by (apply Hsame; cbn; auto).
    assert (Hn : lookup "name" d1 = lookup "name" d2) by (apply Hsame; cbn; auto).
    assert (Ha : lookup "age" d1 = lookup "age" d2) by (apply Hsame; cbn; auto).
    assert (Hg : lookup "gender" d1 = lookup "gender" d2) by (apply Hsame; cbn; auto 6).
    destruct ep; cbn [call_of next_question_call generate_report_call config];
      unfold field; now rewrite Hl, Hn, Ha, Hg.
  - intros Hh. unfold field in Huc1, Huc2. rewrite Hh, Huc2 in Huc1.
    injection Huc1 as <-. now destruct ep.
Qed.

Lemma X9_witness :
  let d1 := [("name", VStr "Asha"); ("history", VList two_items)] in
  let d2 := [("history", VList two_items); ("name", VStr "Ravi")] in
  let uc := context_header NextQuestion
              ++ String.concat EmptyString (map qa_pair two_items)
              ++ context_footer NextQuestion 2 in
  In (next_question_call d1 uc)
     (calls (snd (run (handle NextQuestion (Some (answering "{}"))
                         (json_request (VDict d1))))))
  /\ In (next_question_call d2 uc)
        (calls (snd (run (handle NextQuestion (Some (failing "503 UNAVAILABLE"))
                            (json_request (VDict d2))))))
  /\ contents (next_question_call d1 uc) = contents (next_question_call d2 uc).
Proof.
  cbn zeta.
  assert (H1 : In (next_question_call [("name", VStr "Asha"); ("history", VList two_items)]
                     (context_header NextQuestion
                        ++ String.concat EmptyString (map qa_pair two_items)
                        ++ context_footer NextQuestion 2))
                  (calls (snd (run (handle NextQuestion (Some (answering "{}"))
                                      (json_request
                                         (VDict [("name", VStr "Asha");
                                                 ("history", VList two_items)])))))))
    by (left; reflexivity).
  assert (H2 : In (next_question_call [("history", VList two_items); ("name", VStr "Ravi")]
                     (context_header NextQuestion
                        ++ String.concat EmptyString (map qa_pair two_items)
                        ++ context_footer NextQuestion 2))
                  (calls (snd (run (handle NextQuestion (Some (failing "503 UNAVAILABLE"))
                                      (json_request
                                         (VDict [("history", VList two_items);
                                                 ("name", VStr "Ravi")])))))))
    by (left; reflexivity).
  split; [exact H1|]. split; [exact H2|].
  exact (proj2 (X9_profile_and_history_do_not_mix NextQuestion _ _
                  (json_request (VDict [("name", VStr "Asha"); ("history", VList two_items)]))
                  (json_request (VDict [("history", VList two_items); ("name", VStr "Ravi")]))
                  [("name", VStr "Asha"); ("history", VList two_items)]
                  [("history", VList two_items); ("name", VStr "Ravi")]
                  _ _ eq_refl eq_refl H1 eq_refl eq_refl H2) eq_refl).
Defined.

(** X10. A view reads the five keys language, name, age, gender and history
    and nothing else of the body: two objects that agree on these keys, in
    whatever order and with whatever other keys, get the same response, the
    same call and the same log record. *)
Theorem X10_a_view_reads_five_keys_only
        (ep : Endpoint) (client : option ModelClient) (request1 request2 : Request)
        (d1 d2 : list (string * value))
        (Hjson1 : is_json request1 = true)
        (Hpayload1 : payload request1 = Decoded (VDict d1))
        (Hjson2 : is_json request2 = true)
        (Hpayload2 : payload request2 = Decoded (VDict d2))
        (Hsame : forall key, In key keys_read -> lookup key d1 = lookup key d2) :
  run (handle ep client request1) = run (handle ep client request2).
Proof.
  assert (Hl : lookup "language" d1 = lookup "language" d2) by (apply Hsame; cbn; auto).
  assert (Hn : lookup "name" d1 = lookup "name" d2) by (apply Hsame; cbn; auto).
  assert (Ha : lookup "age" d1 = lookup "age" d2) by (apply Hsame; cbn; auto).
  assert (Hg : lookup "gender" d1 = lookup "gender" d2) by (apply Hsame; cbn; auto 6).
  assert (Hh : lookup "history" d1 = lookup "history" d2) by (apply Hsame; cbn; auto 7).
  rewrite (handle_object ep client request1 d1 Hjson1 Hpayload1).
  rewrite (handle_object ep client request2 d2 Hjson2 Hpayload2).
  unfold field. rewrite Hh.
  destruct (user_context_of ep _) as [uc|e]; [|reflexivity].
  assert (Hcall : call_of ep d1 uc = call_of ep d2 uc).
  { destruct ep; unfold call_of, next_question_call, generate_report_call, field;
      now rewrite Hl, Hn, Ha, Hg. }
  now rewrite Hcall.
Qed.

Lemma X10_witness :
  let d1 := [("name", VStr "Asha"); ("history", VList two_items)] in
  let d2 := [("session", VInt 7); ("history", VList two_items); ("name", VStr "Asha")] in
  (forall key, In key keys_read -> lookup key d1 = lookup key d2)
  /\ run (handle GenerateReport (Some (answering "r")) (json_request (VDict d1)))
     = run (handle GenerateReport (Some (answering "r")) (json_request (VDict d2))).
Proof.
  cbn zeta.
  assert (Hsame : forall key, In key keys_read ->
                    lookup key [("name", VStr "Asha"); ("history", VList two_items)]
                    = lookup key [("session", VInt 7); ("history", VList two_items);
                                  ("name", VStr "Asha")]).
  { intros key [<-|[<-|[<-|[<-|[<-|[]]]]]]; reflexivity. }
  split; [exact Hsame|].
  exact (X10_a_view_reads_five_keys_only GenerateReport (Some (answering "r"))
           (json_request (VDict [("name", VStr "Asha"); ("history", VList two_items)]))
           (json_request (VDict [("session", VInt 7); ("history", VList two_items);
                                 ("name", VStr "Asha")]))
           _ _ eq_refl eq_refl eq_refl eq_refl Hsame).
Defined.

(** ** Start-up *)

(** X11. At start-up an empty [GEMINI_API_KEY] counts as an unset one: in
    both cases the warning is logged and the client is constructed without
    an [api_key] argument; if the constructor raises, the error is logged
    after the warning and [client] is [None]. *)
Theorem X11_empty_api_key_counts_as_unset
        (environ : Environ) (Client : ClientConstructor)
        (Hkey : environ_get "GEMINI_API_KEY" environ = None
                \/ environ_get "GEMINI_API_KEY" environ = Some EmptyString) :
  init_client environ Client
  = match Client None with
    | Ok c =>
        (Some c,
         [mkStartupRecord WARNING
            "GEMINI_API_KEY environment variable not set. Application may not function correctly."])
    | Raise e =>
        (None,
         [mkStartupRecord WARNING
            "GEMINI_API_KEY environment variable not set. Application may not function correctly.";
          mkStartupRecord ERROR ("Failed to initialize Client: " ++ exn_str e)])
    end.
Proof.
  unfold init_client.
  destruct Hkey as [-> | ->]; cbn [String.eqb negb]; now destruct (Client None).
Qed.

Lemma X11_witness :
  environ_get "GEMINI_API_KEY" [("PORT", "5001"); ("GEMINI_API_KEY", EmptyString)]
  = Some EmptyString
  /\ snd (init_client [("PORT", "5001"); ("GEMINI_API_KEY", EmptyString)] no_credentials)
     = [mkStartupRecord WARNING
          "GEMINI_API_KEY environment variable not set. Application may not function correctly.";
        mkStartupRecord ERROR "Failed to initialize Client: Missing key inputs argument!"].
Proof.
  split; [reflexivity|].
  now rewrite (X11_empty_api_key_counts_as_unset
                 [("PORT", "5001"); ("GEMINI_API_KEY", EmptyString)] no_credentials
                 (or_intror eq_refl)).
Defined.

(** X12. Start-up never fails on the constructor: when the call start-up
    makes to [genai.Client] (with the key when [GEMINI_API_KEY] is set and
    not empty, without a key otherwise) raises, [client] is [None] and the
    failure is the last record logged. From then on every request that
    passes validation and prompt construction is answered with the
    endpoint's fixed 500, with no call made and the [AttributeError] on
    [None] logged. *)
Theorem X12_failed_start_up_answers_fixed_500
        (environ : Environ) (Client : ClientConstructor) (e : exn)
        (ep : Endpoint) (request : Request) (d : list (string * value))
        (user_context : string)
        (Hfail : Client match environ_get "GEMINI_API_KEY" environ with
                        | Some k => if String.eqb k EmptyString then None else Some k
                        | None => None
                        end = Raise e)
        (Hjson : is_json request = true)
        (Hpayload : payload request = Decoded (VDict d))
        (Hcontext : user_context_of ep (field d "history" (VList [])) = Ok user_context) :
  fst (init_client environ Client) = None
  /\ last (snd (init_client environ Client)) (mkStartupRecord WARNING EmptyString)
     = mkStartupRecord ERROR ("Failed to initialize Client: " ++ exn_str e)
  /\ run (handle ep (fst (init_client environ Client)) request)
     = (Ok {| status := 500;
              mimetype := "application/json";
              body := Json (VDict [("error",
                                    VStr match ep with
                                         | NextQuestion => "Failed to calculate next question."
                                         | GenerateReport => "Failed to generate report."
                                         end)]) |},
        {| calls := [];
           records := [failure_record ep
                         (AttributeError "'NoneType' object has no attribute 'models'")] |}).
Proof.
  assert (Hinit : fst (init_client environ Client) = None
                  /\ last (snd (init_client environ Client))
                          (mkStartupRecord WARNING EmptyString)
                     = mkStartupRecord ERROR ("Failed to initialize Client: " ++ exn_str e)).
  { unfold init_client.
    destruct (environ_get "GEMINI_API_KEY" environ) as [k|].
    - destruct (String.eqb k EmptyString); cbn [negb]; rewrite Hfail; now cbn.
    - cbn [negb]. rewrite Hfail. now cbn. }
  destruct Hinit as (Hnone & Hlast).
  split; [exact Hnone|]. split; [exact Hlast|].
  rewrite Hnone, (handle_object ep None request d Hjson Hpayload), Hcontext.
  now destruct ep.
Qed.

Lemma X12_witness :
  needs_key None = Raise (ClientError "Missing key inputs argument!")
  /\ (exists c, needs_key (Some "k") = Ok c)
  /\ fst (init_client [("PORT", "5001")] needs_key) = None
  /\ fst (run (handle NextQuestion (fst (init_client [("PORT", "5001")] needs_key))
                 (json_request (VDict []))))
     = Ok {| status := 500;
             mimetype := "application/json";
             body := Json (VDict [("error", VStr "Failed to calculate next question.")]) |}.
Proof.
  split; [reflexivity|]. split; [eexists; reflexivity|].
  destruct (X12_failed_start_up_answers_fixed_500 [("PORT", "5001")] needs_key
              (ClientError "Missing key inputs argument!") NextQuestion
              (json_request (VDict [])) []
              ("Q&A History so far:" ++ nl ++ first_question_text)
              eq_refl eq_refl eq_refl eq_refl) as (Hnone & _ & Hrun).
  split; [exact Hnone|]. now rewrite Hrun.
Defined.

End Props.
